(** * datacube_ows.ogc_utils: a shallow embedding and its properties

    The Python module [src/datacube_ows/ogc_utils.py] is embedded as Rocq
    functions.  Python objects are values of [pyval]; dictionaries are
    mutable objects living in a [store] and are referred to by location,
    so that two names bound to one dictionary see each other's updates.
    Code that can raise returns a [result]; the exception carries its class
    and its message. *)

From Stdlib Require Import ZArith String Ascii List Lia Bool.
From Stdlib Require Import DecimalString DecimalN DecimalPos.
From stdpp Require Import base option list strings gmap.

Local Open Scope string_scope.

(** ** Exceptions and fallible computations *)

Inductive exn_class :=
| Exception
| ConfigException
| KeyError
| TypeError
| AttributeError
| AssertionError
| ValueError
| ImportError
| UnknownTimeZoneError.

(** An exception instance: its class and the message it was built with
    ([None] for a bare [raise Cls()] or a failed [assert] without text). *)
Record exn := Raise { exn_cls : exn_class; exn_msg : option string }.

Inductive result (A : Type) :=
| Ok (a : A)
| Err (e : exn).
Arguments Ok {A} a.
Arguments Err {A} e.

Definition bind {A B} (c : result A) (k : A -> result B) : result B :=
  match c with
  | Ok a => k a
  | Err e => Err e
  end.

Notation "'let*' x ':=' c 'in' k" := (bind c (fun x => k))
  (at level 10, x pattern, c at level 100, k at level 200).

Definition raise {A} (c : exn_class) (msg : string) : result A :=
  Err (Raise c (Some msg)).

Definition exn_class_eqb (a b : exn_class) : bool :=
  match a, b with
  | Exception, Exception | ConfigException, ConfigException
  | KeyError, KeyError | TypeError, TypeError
  | AttributeError, AttributeError | AssertionError, AssertionError
  | ValueError, ValueError | ImportError, ImportError
  | UnknownTimeZoneError, UnknownTimeZoneError => true
  | _, _ => false
  end.

(** [try: c except cls: handler] *)
Definition try_except {A} (c : result A) (cls : exn_class) (handler : result A)
  : result A :=
  match c with
  | Ok a => Ok a
  | Err e => if exn_class_eqb (exn_cls e) cls then handler else Err e
  end.

(** ** Python values and the object store *)

Abbreviation loc := nat.

#[warnings="-register-all"]
Inductive pyval :=
| VNone
| VBool (b : bool)
| VInt (n : Z)
| VStr (s : string)
| VList (vs : list pyval)
| VDict (l : loc)                (* a reference to a dict object *)
| VCallable (qualname : string)  (* a function or any other callable *)
| VObject (tag : string).        (* any other object: a datetime, a layer *)

(** A dict object keeps its keys in insertion order. *)
Abbreviation dict := (list (string * pyval)).

(** The store holds the dict objects; a location that was never allocated
    reads as the empty dict (no Python reference can be dangling). *)
Abbreviation store := (list dict).

Definition deref (st : store) (l : loc) : dict := default [] (st !! l).

Definition alloc (st : store) (d : dict) : loc * store :=
  (length st, (st ++ [d])%list).

(** [d[k]] lookup on the contents of a dict *)
Fixpoint dict_get (k : string) (d : dict) : option pyval :=
  match d with
  | [] => None
  | (k', v) :: d' => if String.eqb k k' then Some v else dict_get k d'
  end.

(** [d[k] = v]: an existing key keeps its place, a new key goes last *)
Fixpoint dict_set (k : string) (v : pyval) (d : dict) : dict :=
  match d with
  | [] => [(k, v)]
  | (k', v') :: d' =>
      if String.eqb k k' then (k', v) :: d' else (k', v') :: dict_set k v d'
  end.

(** [d.update(other)] *)
Definition dict_update (d other : dict) : dict :=
  fold_left (fun acc kv => dict_set (fst kv) (snd kv) acc) other d.

Definition is_empty {A} (l : list A) : bool :=
  match l with [] => true | _ => false end.

(** Truth value testing, as [if v:] does it. *)
Definition truthy (st : store) (v : pyval) : bool :=
  match v with
  | VNone => false
  | VBool b => b
  | VInt n => negb (n =? 0)%Z
  | VStr s => negb (String.eqb s "")
  | VList vs => negb (is_empty vs)
  | VDict l => negb (is_empty (deref st l))
  | VCallable _ => true
  | VObject _ => true
  end.

Definition callable (v : pyval) : bool :=
  match v with VCallable _ => true | _ => false end.

Definition is_None (v : pyval) : bool :=
  match v with VNone => true | _ => false end.

Definition type_name (v : pyval) : string :=
  match v with
  | VNone => "NoneType"
  | VBool _ => "bool"
  | VInt _ => "int"
  | VStr _ => "str"
  | VList _ => "list"
  | VDict _ => "dict"
  | VCallable _ => "function"
  | VObject tag => tag
  end.

(** [v[key]] with a string key *)
Definition subscript (st : store) (v : pyval) (key : string) : result pyval :=
  match v with
  | VDict l =>
      match dict_get key (deref st l) with
      | Some x => Ok x
      | None => raise KeyError key
      end
  | VList _ | VStr _ =>
      raise TypeError (type_name v ++ " indices must be integers")
  | _ => raise TypeError ("'" ++ type_name v ++ "' object is not subscriptable")
  end.

(** [v[key] = x] with a string key *)
Definition setitem (st : store) (v : pyval) (key : string) (x : pyval)
  : result store :=
  match v with
  | VDict l => Ok (<[l := dict_set key x (deref st l)]> st)
  | VList _ => raise TypeError "list indices must be integers"
  | _ =>
      raise TypeError
        ("'" ++ type_name v ++ "' object does not support item assignment")
  end.

(** Iteration, as argument unpacking [*v] does it. *)
Definition iterate (st : store) (v : pyval) : result (list pyval) :=
  match v with
  | VList vs => Ok vs
  | VStr s => Ok (map (fun c => VStr (String c "")) (list_ascii_of_string s))
  | VDict l => Ok (map (fun kv => VStr (fst kv)) (deref st l))
  | _ => raise TypeError ("'" ++ type_name v ++ "' object is not iterable")
  end.

(** Keyword unpacking [**v] *)
Definition mapping (st : store) (v : pyval) : result dict :=
  match v with
  | VDict l => Ok (deref st l)
  | _ => raise TypeError "argument after ** must be a mapping"
  end.

(** ** Coordinate and time utilities *)

(** What the code reads of a datacube dataset: the computed centre time and
    the metadata document. *)
Record Dataset := {
  center_time : pyval;
  metadata_doc : pyval
}.

Section TimeUtilities.

(** [dateutil.parser.parse] on a string: a timestamp object or an error. *)
Variable dateutil_parse : string -> result pyval.

Definition parse (timestr : pyval) : result pyval :=
  match timestr with
  | VStr s => dateutil_parse s
  | _ =>
      raise TypeError
        ("Parser must be a string or character stream, not " ++ type_name timestr)
  end.

Definition dataset_center_time (st : store) (dataset : Dataset) : result pyval :=
  let center_time0 := center_time dataset in
  try_except
    (let* extent := subscript st (metadata_doc dataset) "extent" in
     let* metadata_time := subscript st extent "center_dt" in
     parse metadata_time)
    KeyError
    (Ok center_time0).

End TimeUtilities.

(** ** Calendar dates and zone-aware datetimes *)

Local Open Scope Z_scope.

Record date := { year : Z; month : Z; day : Z }.

Definition _is_leap (y : Z) : bool :=
  (y mod 4 =? 0) && (negb (y mod 100 =? 0) || (y mod 400 =? 0)).

Definition _days_before_year (y : Z) : Z :=
  let y := y - 1 in y * 365 + y / 4 - y / 100 + y / 400.

Definition _DAYS_BEFORE_MONTH (m : Z) : Z :=
  match m with
  | 1 => 0 | 2 => 31 | 3 => 59 | 4 => 90 | 5 => 120 | 6 => 151
  | 7 => 181 | 8 => 212 | 9 => 243 | 10 => 273 | 11 => 304 | 12 => 334
  | _ => 0
  end.

Definition _days_before_month (y m : Z) : Z :=
  _DAYS_BEFORE_MONTH m + (if (2 <? m) && _is_leap y then 1 else 0).

(** [date.toordinal()]: 0001-01-01 is day 1. *)
Definition toordinal (d : date) : Z :=
  _days_before_year (year d) + _days_before_month (year d) (month d) + day d.

(** A [pytz] zone object, with the two things the code observes of it:
    [_utcoffset] is the offset the object itself reports for a datetime it
    is attached to through [tzinfo=]; [utcoffset_at u] is the offset the
    zone's transition table gives at the UTC instant [u], which
    [astimezone] uses.  Offsets and instants are in seconds. *)
Record tzinfo := {
  zone : string;
  _utcoffset : Z;
  utcoffset_at : Z -> Z
}.

Definition utc : tzinfo :=
  {| zone := "UTC"; _utcoffset := 0; utcoffset_at := fun _ => 0 |}.

(** An aware datetime: the wall-clock reading, in seconds counted from
    ordinal day 0, and the zone object attached to it. *)
Record datetime := {
  wall : Z;
  dt_tzinfo : tzinfo
}.

(** [datetime(y, m, d, hh, mm, ss, tzinfo=tz)] *)
Definition datetime_new (d : date) (hh mm ss : Z) (tz : tzinfo) : datetime :=
  {| wall := toordinal d * 86400 + hh * 3600 + mm * 60 + ss; dt_tzinfo := tz |}.

(** The UTC instant an aware datetime denotes: wall clock minus the offset
    of the attached zone object. *)
Definition utc_instant (dt : datetime) : Z :=
  wall dt - _utcoffset (dt_tzinfo dt).

(** [dt.astimezone(tz)] *)
Definition astimezone (dt : datetime) (tz : tzinfo) : datetime :=
  let u := utc_instant dt in
  let off := utcoffset_at tz u in
  {| wall := u + off;
     dt_tzinfo := {| zone := zone tz; _utcoffset := off;
                     utcoffset_at := utcoffset_at tz |} |}.

(** [dt.date()], as an ordinal *)
Definition date_of (dt : datetime) : Z := wall dt / 86400.

(** [end - start] of two aware datetimes, in seconds *)
Definition timedelta (dt_end dt_start : datetime) : Z :=
  utc_instant dt_end - utc_instant dt_start.

Local Close Scope Z_scope.

(** ** Timezone resolver *)

(** What [tz_for_coord] does besides returning: the queries it sends to the
    timezone finder and the lines it prints. *)
Inductive event :=
| Query (delta_degree : Z)
| Print (text : string).

Definition io (A : Type) : Type := list event * result A.

Definition io_ret {A} (a : A) : io A := ([], Ok a).

Definition io_bind {A B} (c : io A) (k : A -> io B) : io B :=
  match c with
  | (tr, Ok a) => let (tr', r) := k a in ((tr ++ tr')%list, r)
  | (tr, Err e) => (tr, Err e)
  end.

Definition io_lift {A} (r : result A) : io A := ([], r).

Definition print (text : string) : io unit := ([Print text], Ok tt).

Notation "'do' x '<-' c ';' k" := (io_bind c (fun x => k))
  (at level 10, x pattern, c at level 100, k at level 200).

Definition queries (tr : list event) : list Z :=
  omap (fun e => match e with Query d => Some d | Print _ => None end) tr.

Definition printed (tr : list event) : list string :=
  omap (fun e => match e with Print s => Some s | Query _ => None end) tr.

(** The geobox, as far as the code reads it:
    [geobox.geographic_extent.centroid.coords[0]]. *)
Record GeoBox (coord : Type) := {
  centroid_coords0 : coord * coord
}.
Arguments centroid_coords0 {coord} g.

Section Timezones.

Variable coord : Type.

(** [tf.closest_timezone_at(lng=, lat=, delta_degree=)]: a zone name,
    [None], or an exception of the finder's own. *)
Variable closest_timezone_at : coord -> coord -> Z -> result (option string).

(** [pytz.timezone(name)] *)
Variable timezone : string -> result tzinfo.

Definition query (lon lat : coord) (delta_degree : Z) : io (option string) :=
  ([Query delta_degree], closest_timezone_at lon lat delta_degree).

(** [not tzn] for a name that is a string or [None] *)
Definition not_ (tzn : option string) : bool :=
  match tzn with
  | None => true
  | Some s => String.eqb s ""
  end.

(** A query that returns and finds nothing: [None] or the empty name. *)
Definition finds_nothing (lon lat : coord) (delta_degree : Z) : Prop :=
  exists tzn, closest_timezone_at lon lat delta_degree = Ok tzn /\ not_ tzn = true.

(** A query that returns the name [n] of a zone. *)
Definition finds (lon lat : coord) (delta_degree : Z) (n : string) : Prop :=
  closest_timezone_at lon lat delta_degree = Ok (Some n) /\ n <> "".

Definition timezone_of (tzn : option string) : result tzinfo :=
  match tzn with
  | Some s => timezone s
  | None => raise UnknownTimeZoneError "None"
  end.

Definition tz_for_coord (lon lat : coord) : io tzinfo :=
  do tzn <- query lon lat 9;
  do tzn <- (if not_ tzn then
               do _ <- print "closest tz failed with delta 9deg";
               do tzn <- query lon lat 15;
               if not_ tzn then
                 io_lift (raise Exception "closest tz failed with delta 15deg")
               else io_ret tzn
             else io_ret tzn);
  io_lift (timezone_of tzn).

Definition coord_date (time : datetime) (lon lat : coord) : io datetime :=
  do tz <- tz_for_coord lon lat;
  io_ret (astimezone time tz).

Definition local_solar_date_range (geobox : GeoBox coord) (d : date)
  : io (datetime * datetime) :=
  let centroid := centroid_coords0 geobox in
  do tz <- tz_for_coord (fst centroid) (snd centroid);
  let start := datetime_new d 0 0 0 tz in
  let end_ := datetime_new d 23 59 59 tz in
  io_ret (astimezone start utc, astimezone end_ utc).

End Timezones.

(** ** Resolving a function from its qualified name *)

(** [s.rsplit('.', 1)]: the list of one or two pieces *)
Fixpoint rsplit_dot (s : string) : list string :=
  match s with
  | EmptyString => [""]
  | String c s' =>
      match rsplit_dot s' with
      | [m; f] => [String c m; f]
      | _ => if Ascii.eqb c "." then [""; s'] else [String c s']
      end
  end.

Section Resolution.

(** [importlib.import_module(name)]: the namespace of the module, or the
    import's exception. *)
Variable import_module : string -> result dict.

(** [getattr(mod, name)] on a module *)
Definition getattr_module (mod_name : string) (mod_ : dict) (name : string)
  : result pyval :=
  match dict_get name mod_ with
  | Some v => Ok v
  | None =>
      raise AttributeError
        ("module '" ++ mod_name ++ "' has no attribute '" ++ name ++ "'")
  end.

Definition get_function (func : pyval) : result pyval :=
  if negb (is_None func) && negb (callable func) then
    match func with
    | VStr s =>
        match rsplit_dot s with
        | [mod_name; func_name] =>
            let* mod_ := import_module mod_name in
            let* func := getattr_module mod_name mod_ func_name in
            if callable func then Ok func
            else Err (Raise AssertionError None)
        | _ => raise ValueError "not enough values to unpack (expected 2, got 1)"
        end
    | _ =>
        raise AttributeError
          ("'" ++ type_name func ++ "' object has no attribute 'rsplit'")
    end
  else Ok func.

End Resolution.

(** ** Data collections *)

Inductive klass := DataCollection | DatasetCollection.

Section Collections.

Variables T P : Type.

(** The two [TimeData] classes differ in the name of the attribute that
    holds the payload. *)
Inductive TimeData :=
| DataTimeData (time : T) (data : P)          (* DataCollection.TimeData *)
| DatasetTimeData (time : T) (datasets : P).  (* DatasetCollection.TimeData *)

Record collection := {
  cls : klass;
  _collections : list TimeData
}.

Definition collection_new (k : klass) : collection :=
  {| cls := k; _collections := [] |}.

(** [self.TimeData(time, data)]: the class attribute is looked up on the
    class of [self]. *)
Definition make_TimeData (k : klass) (time : T) (data : P) : TimeData :=
  match k with
  | DataCollection => DataTimeData time data
  | DatasetCollection => DatasetTimeData time data
  end.

Definition add_time (self : collection) (time : T) (data : P) : collection :=
  {| cls := cls self;
     _collections := (_collections self ++ [make_TimeData (cls self) time data])%list |}.

(** [td.data] *)
Definition attr_data (td : TimeData) : result P :=
  match td with
  | DataTimeData _ data => Ok data
  | DatasetTimeData _ _ =>
      raise AttributeError "'TimeData' object has no attribute 'data'"
  end.

(** [collapse_to_single]; Python's [None] is the [None] of [option]. *)
Definition collapse_to_single (self : collection) : result (option P) :=
  match _collections self with
  | td :: _ => let* d := attr_data td in Ok (Some d)
  | [] => Ok None
  end.

Fixpoint result_map {A B} (f : A -> result B) (l : list A) : result (list B) :=
  match l with
  | [] => Ok []
  | a :: l' =>
      let* b := f a in
      let* bs := result_map f l' in
      Ok (b :: bs)
  end.

Definition data_list (self : collection) : result (list P) :=
  result_map attr_data (_collections self).

(** [len(td)]: only the dataset [TimeData] class defines [__len__]. *)
Definition TimeData_len (len_P : P -> nat) (td : TimeData) : result nat :=
  match td with
  | DatasetTimeData _ datasets => Ok (len_P datasets)
  | DataTimeData _ _ => raise TypeError "object of type 'TimeData' has no len()"
  end.

(** [len(self)], with [len_P] the length of a payload *)
Definition collection_len (len_P : P -> nat) (self : collection) : result nat :=
  match cls self with
  | DataCollection => Ok (length (_collections self))
  | DatasetCollection =>
      let* ns := result_map (TimeData_len len_P) (_collections self) in
      Ok (foldr Nat.add 0 ns)
  end.

Definition collection_bool (len_P : P -> nat) (self : collection) : result bool :=
  let* n := collection_len len_P self in
  Ok (negb (Nat.eqb n 0)).

End Collections.

Arguments DataTimeData {T P} time data.
Arguments DatasetTimeData {T P} time datasets.
Arguments cls {T P} c.
Arguments _collections {T P} c.
Arguments collection_new {T P} k.
Arguments add_time {T P} self time data.
Arguments attr_data {T P} td.
Arguments collapse_to_single {T P} self.
Arguments collection_len {T P} len_P self.

(** A [DatasetCollection] holds sets of dataset references. *)
Definition dataset_ref := nat.

Definition DatasetCollection_len {T} (self : collection T (gset dataset_ref))
  : result nat :=
  collection_len size self.

(** ** Function wrapper for configurable functional elements *)

Module FunctionWrapper.

Record t := {
  _func : pyval;
  _args : pyval;
  _kwargs : pyval;
  product_cfg : pyval
}.

(** What the wrapped function is finally called with. *)
Record invocation := {
  callee : pyval;
  positional : list pyval;
  keywords : dict
}.

Section Dispatch.

Variable import_module : string -> result dict.

(** [d.get(key, default)] on the dict at [l] *)
Definition dict_get_default (st : store) (l : loc) (key : string)
  (default : pyval) : pyval :=
  match dict_get key (deref st l) with
  | Some v => v
  | None => default
  end.

Definition __init__ (product_cfg0 func_cfg : pyval) (st : store)
  : result (t * store) :=
  if callable func_cfg then
    raise ConfigException
      "Directly including callable objects in configuration is no longer supported. Please reference callables by fully qualified name."
  else
    match func_cfg with
    | VStr _ =>
        let* f := get_function import_module func_cfg in
        let (l, st) := alloc st [] in
        Ok ({| _func := f; _args := VList []; _kwargs := VDict l;
               product_cfg := VNone |}, st)
    | _ =>
        let* name := subscript st func_cfg "function" in
        let* f := get_function import_module name in
        match func_cfg with
        | VDict c =>
            let args := dict_get_default st c "args" (VList []) in
            (* the default [{}] is a new dict object *)
            let (l, st) := alloc st [] in
            let kwargs := dict_get_default st c "kwargs" (VDict l) in
            let pcfg :=
              if truthy st (dict_get_default st c "pass_product_cfg" (VBool false))
              then product_cfg0 else VNone in
            Ok ({| _func := f; _args := args; _kwargs := kwargs;
                   product_cfg := pcfg |}, st)
        | _ =>
            raise AttributeError
              ("'" ++ type_name func_cfg ++ "' object has no attribute 'get'")
        end
    end.

(** The three shapes [calling_args] can take before it is unpacked. *)
Inductive calling_args :=
| Chain (args : list pyval) (defaults : pyval)  (* chain(args, self._args) *)
| CallArgs (args : list pyval)                  (* the call's own tuple *)
| Defaults (defaults : pyval).                  (* self._args itself *)

Definition unpack (st : store) (ca : calling_args) : result (list pyval) :=
  match ca with
  | Chain args defaults =>
      let* ds := iterate st defaults in Ok (args ++ ds)%list
  | CallArgs args => Ok args
  | Defaults defaults => iterate st defaults
  end.

(** [self._kwargs.copy()] followed by [.update(kwargs)] *)
Definition copy_update (st : store) (bound : pyval) (kwargs : dict)
  : result (pyval * store) :=
  match bound with
  | VDict l =>
      let (c, st) := alloc st (dict_update (deref st l) kwargs) in
      Ok (VDict c, st)
  | VList _ => raise AttributeError "'list' object has no attribute 'update'"
  | _ =>
      raise AttributeError
        ("'" ++ type_name bound ++ "' object has no attribute 'copy'")
  end.

(** The body of [__call__] up to the call of [self._func]: the arguments
    the call is made with, and the store it leaves.  The call's [**kwargs]
    is a dict object of its own. *)
Definition prepare (self : t) (args : list pyval) (kwargs : dict) (st : store)
  : result (invocation * store) :=
  let (k, st) := alloc st kwargs in
  let calling_args0 :=
    if negb (is_empty args) && truthy st (_args self) then
      Chain args (_args self)
    else if negb (is_empty args) then CallArgs args
    else Defaults (_args self) in
  let* (calling_kwargs, st) :=
    if negb (is_empty kwargs) && truthy st (_kwargs self) then
      copy_update st (_kwargs self) kwargs
    else if negb (is_empty kwargs) then Ok (VDict k, st)
    else Ok (_kwargs self, st) in
  let* st :=
    if truthy st (product_cfg self) then
      setitem st calling_kwargs "product_cfg" (product_cfg self)
    else Ok st in
  let* pos := unpack st calling_args0 in
  let* kw := mapping st calling_kwargs in
  Ok ({| callee := _func self; positional := pos; keywords := kw |}, st).

(** The functions a configuration can name, by what they compute. *)
Variable apply_function : string -> list pyval -> dict -> result pyval.

Definition invoke (i : invocation) : result pyval :=
  match callee i with
  | VCallable name => apply_function name (positional i) (keywords i)
  | v => raise TypeError ("'" ++ type_name v ++ "' object is not callable")
  end.

Definition __call__ (self : t) (args : list pyval) (kwargs : dict) (st : store)
  : result (pyval * store) :=
  let* (i, st) := prepare self args kwargs st in
  let* r := invoke i in
  Ok (r, st).

End Dispatch.

End FunctionWrapper.

(** ** A concrete environment for the examples *)

(** The part of the standard [math] module the examples use: the function
    [pow] and the constant [pi] (a float, not callable). *)
Definition example_modules (name : string) : result dict :=
  if String.eqb name "math" then
    Ok [("pow", VCallable "math.pow"); ("pi", VObject "float")]
  else raise ImportError ("No module named '" ++ name ++ "'").

(** [math.pow] on integers (Python returns the float of the same value). *)
Definition example_functions (name : string) (args : list pyval) (kwargs : dict)
  : result pyval :=
  if String.eqb name "math.pow" then
    match args, kwargs with
    | [VInt x; VInt y], [] => Ok (VInt (x ^ y))
    | _, _ => raise TypeError "pow expected 2 arguments"
    end
  else raise TypeError ("no model of " ++ name).

(** Sydney as [pytz] has it: the zone object's own offset is local mean
    time, +10:05; the zone's table gives +11:00 during daylight saving
    (in 2019: until 6 April 16:00 UTC and from 5 October 16:00 UTC) and
    +10:00 otherwise. *)
Definition sydney : tzinfo :=
  {| zone := "Australia/Sydney";
     _utcoffset := 36300;
     utcoffset_at := fun u =>
       if ((u <? toordinal {| year := 2019; month := 4; day := 6 |} * 86400 + 57600)
           || (toordinal {| year := 2019; month := 10; day := 5 |} * 86400 + 57600 <=? u))%Z
       then 39600%Z else 36000%Z |}.

(** A finder that knows one zone, around Sydney (degrees as integers), and
    the zone table that goes with it. *)
Definition example_finder (lon lat : Z) (delta_degree : Z)
  : result (option string) :=
  if ((Z.abs (lon - 151) <=? delta_degree) && (Z.abs (lat + 34) <=? delta_degree))%Z
  then Ok (Some "Australia/Sydney") else Ok None.

Definition example_timezone (name : string) : result tzinfo :=
  if String.eqb name "Australia/Sydney" then Ok sydney
  else if String.eqb name "UTC" then Ok utc
  else raise UnknownTimeZoneError name.

(** [add_time] once per element of a list, in order *)
Definition add_all {T P} (c : collection T P) (adds : list (T * P))
  : collection T P :=
  fold_left (fun c tp => add_time c (fst tp) (snd tp)) adds c.

(** The number of datasets in a list of additions *)
Definition total_size {T} (adds : list (T * gset dataset_ref)) : nat :=
  foldr Nat.add 0 (map (fun tp => size (snd tp)) adds).

(** The nested path [extent.center_dt] of a metadata document holds the
    string [s]. *)
Definition center_dt_present (st : store) (doc : pyval) (s : string) : Prop :=
  exists m e,
    doc = VDict m /\
    dict_get "extent" (deref st m) = Some (VDict e) /\
    dict_get "center_dt" (deref st e) = Some (VStr s).

(** A key of the path is missing: the document has no [extent], or its
    [extent] has no [center_dt]. *)
Definition center_dt_absent (st : store) (doc : pyval) : Prop :=
  exists m,
    doc = VDict m /\
    (dict_get "extent" (deref st m) = None \/
     exists e,
       dict_get "extent" (deref st m) = Some (VDict e) /\
       dict_get "center_dt" (deref st e) = None).

(** A reference held in a value points into the store. *)
Definition valid (st : store) (v : pyval) : Prop :=
  match v with
  | VDict l => l < length st
  | _ => True
  end.

Fixpoint has_dot (s : string) : bool :=
  match s with
  | EmptyString => false
  | String c s' => Ascii.eqb c "." || has_dot s'
  end.

Import FunctionWrapper.

(** The keyword arguments before the product configuration is added, by
    the three branches of [__call__]. *)
Definition merged (bound kwargs : dict) : dict :=
  if negb (is_empty kwargs) && negb (is_empty bound) then dict_update bound kwargs
  else if negb (is_empty kwargs) then kwargs
  else bound.

(** The wrappers of the examples *)

(** The configuration [{"function": "math.pow", "args": [2], "kwargs": {}}]
    in a store: the record at 0, its [kwargs] dict at 1. *)
Definition pow_cfg_store : store :=
  [[("function", VStr "math.pow"); ("args", VList [VInt 2]); ("kwargs", VDict 1)];
   []].

Definition pow_wrapper : t :=
  {| _func := VCallable "math.pow"; _args := VList [VInt 2];
     _kwargs := VDict 1; product_cfg := VNone |}.

(** The configuration [{"function": "math.pow", "pass_product_cfg": True}]. *)
Definition layer_cfg_store : store :=
  [[("function", VStr "math.pow"); ("pass_product_cfg", VBool true)]].

Definition layer_wrapper : t :=
  {| _func := VCallable "math.pow"; _args := VList [];
     _kwargs := VDict 1; product_cfg := VObject "layer" |}.

(** The same configuration next to an empty product configuration, the
    dict at 1. *)
Definition empty_cfg_store : store :=
  [[("function", VStr "math.pow"); ("pass_product_cfg", VBool true)]; []].

(** ** Exceptions of one more class *)

(** The functions below can also raise [IndexError]; their results are an
    [outcome], which puts that class next to the exceptions above. *)
Inductive outcome (A : Type) :=
| Returns (a : A)
| Raises (e : exn)
| RaisesIndexError (msg : string).
Arguments Returns {A} a.
Arguments Raises {A} e.
Arguments RaisesIndexError {A} msg.

Definition of_result {A} (r : result A) : outcome A :=
  match r with
  | Ok a => Returns a
  | Err e => Raises e
  end.

(** ** Local date of a dataset *)

Section LocalDate.

Variable coord : Type.
Variable closest_timezone_at : coord -> coord -> Z -> result (option string).
Variable timezone : string -> result tzinfo.
Variable dateutil_parse : string -> result pyval.

(** [dataset_center_coords(dataset)]: the projected centroid, computed by
    the geometry library. *)
Variable dataset_center_coords : Dataset -> result (coord * coord).

(** The datetime a timestamp object is. *)
Variable datetime_of : pyval -> datetime.

(** [local_date(ds, tz)]; [tz=None] is [None], and a zone object is
    truthy.  The date is returned as its ordinal. *)
Definition local_date (st : store) (ds : Dataset) (tz : option tzinfo) : io Z :=
  do dt_utc <- io_lift (dataset_center_time dateutil_parse st ds);
  match tz with
  | Some tz => io_ret (date_of (astimezone (datetime_of dt_utc) tz))
  | None =>
      do c <- io_lift (dataset_center_coords ds);
      do local <- coord_date coord closest_timezone_at timezone
                    (datetime_of dt_utc) (fst c) (snd c);
      io_ret (date_of local)
  end.

End LocalDate.

(** ** Service base URLs *)

(** [s.rstrip("/")] *)
Fixpoint rstrip_slash (s : string) : string :=
  match s with
  | EmptyString => EmptyString
  | String c s' =>
      match rstrip_slash s' with
      | EmptyString =>
          if Ascii.eqb c "/" then EmptyString else String c EmptyString
      | r => String c r
      end
  end.

(** The last character of [s] is a slash. *)
Fixpoint ends_with_slash (s : string) : bool :=
  match s with
  | EmptyString => false
  | String c EmptyString => Ascii.eqb c "/"
  | String _ s' => ends_with_slash s'
  end.

(** [n] slashes *)
Fixpoint slashes (n : nat) : string :=
  match n with
  | O => EmptyString
  | S n' => String "/" (slashes n')
  end.

(** A table of URLs for the examples, with what [urlparse] gives for
    each: the network location and the path. *)
Definition example_urlparse (url : string) : result (string * string) :=
  if String.eqb url "https://ows.example.org/" then Ok ("ows.example.org", "/")
  else if String.eqb url "https://ows.example.org/wms" then Ok ("ows.example.org", "/wms")
  else if String.eqb url "http://ows.example.org/wms/" then Ok ("ows.example.org", "/wms/")
  else if String.eqb url "https://mirror.example.org/wms//" then Ok ("mirror.example.org", "/wms//")
  else raise ValueError ("Invalid URL: " ++ url).

(** [l.index(x)]: the first position of [x], [None] for [ValueError] *)
Fixpoint list_index (x : string) (l : list string) : option nat :=
  match l with
  | [] => None
  | y :: l' =>
      if String.eqb y x then Some 0
      else match list_index x l' with
           | Some i => Some (S i)
           | None => None
           end
  end.

(** The configured service URL: one value, or a list of URL strings. *)
Inductive allowed_urls_cfg :=
| OneUrl (u : string)
| UrlList (us : list string).

Section Urls.

(** [urllib.parse.urlparse(url)], of which the code reads [netloc] and
    [path]; it raises [ValueError] on some malformed URLs. *)
Variable urlparse : string -> result (string * string).

Definition parse_for_base_url (url : string) : result string :=
  let* parsed := urlparse url in
  Ok (rstrip_slash (fst parsed ++ snd parsed)).

Definition get_service_base_url (allowed_urls : allowed_urls_cfg)
  (request_url : string) : outcome string :=
  match allowed_urls with
  | OneUrl u => Returns u
  | UrlList us =>
      match parse_for_base_url request_url with
      | Err e => Raises e
      | Ok parsed_request_url =>
          match result_map parse_for_base_url us with
          | Err e => Raises e
          | Ok parsed_allowed_urls =>
              let idx := list_index parsed_request_url parsed_allowed_urls in
              let url :=
                match idx with
                | Some i => us !! i
                | None => us !! 0
                end in
              match url with
              | Some url => Returns (rstrip_slash url)
              | None => RaisesIndexError "list index out of range"
              end
          end
      end
  end.

End Urls.

(** ** Headers of a request *)

(** The flask request, as far as [capture_headers] reads it:
    [request.headers.get], [request.environ.get] and [request.url_root]. *)
Record Request := {
  headers_get : string -> option pyval;
  environ_get : string -> option pyval;
  url_root : pyval
}.

Definition capture_headers (request : Request) (args_dict : pyval) (st : store)
  : result (pyval * store) :=
  let* st := setitem st args_dict "referer"
               (default VNone (headers_get request "Referer")) in
  let* st := setitem st args_dict "origin"
               (default VNone (headers_get request "Origin")) in
  let* st := setitem st args_dict "requestid"
               (default VNone (environ_get request "FLASK_REQUEST_ID")) in
  let* st := setitem st args_dict "host"
               (default VNone (headers_get request "Host")) in
  let* st := setitem st args_dict "url_root" (url_root request) in
  Ok (args_dict, st).

(** The keys [capture_headers] writes. *)
Definition captured_keys : list string :=
  ["referer"; "origin"; "requestid"; "host"; "url_root"].

(** ** Iterating a collection *)

(** [iter(self)]: [yield from self._collections] *)
Definition collection_iter {T P} (self : collection T P) : list (TimeData T P) :=
  _collections self.

(** ** Extent mask functions *)

(** A band of integer pixels with its attributes, and the dataset of
    bands, as [xarray] has them. *)
Record DataArray := {
  values : list Z;
  attrs : gmap string Z
}.

(** [data[band]] *)
Definition getband (data : gmap string DataArray) (band : string)
  : result DataArray :=
  match data !! band with
  | Some a => Ok a
  | None => raise KeyError band
  end.

(** [a.attrs[name]] *)
Definition getattr_band (a : DataArray) (name : string) : result Z :=
  match attrs a !! name with
  | Some v => Ok v
  | None => raise KeyError name
  end.

Definition mask_by_val (data : gmap string DataArray) (band : string)
  (val : option Z) : result (list bool) :=
  match val with
  | None =>
      let* a := getband data band in
      let* nodata := getattr_band a "nodata" in
      Ok (map (fun x => negb (x =? nodata)%Z) (values a))
  | Some v =>
      let* a := getband data band in
      Ok (map (fun x => negb (x =? v)%Z) (values a))
  end.

Definition mask_by_bitflag (data : gmap string DataArray) (band : string)
  : result (list Z) :=
  let* a := getband data band in
  let* nodata := getattr_band a "nodata" in
  Ok (map (fun x => Z.land (Z.lnot x) nodata) (values a)).

Definition mask_by_quality (data : gmap string DataArray) (band : string)
  : result (list bool) :=
  let* a := getband data "quality" in
  Ok (map (fun x => negb (x =? 1)%Z) (values a)).

Definition mask_by_extent_flag (data : gmap string DataArray) (band : string)
  : result (list bool) :=
  let* a := getband data "extent" in
  Ok (map (fun x => (x =? 1)%Z) (values a)).

Definition mask_by_extent_val (data : gmap string DataArray) (band : string)
  : result (list bool) :=
  let* a := getband data "extent" in
  let* nodata := getattr_band a "nodata" in
  Ok (map (fun x => negb (x =? nodata)%Z) (values a)).

(** ** Sub-product extractors *)

(** The pattern is [L8/] followed by a group of any number of digits: it
    matches at a position exactly when the text there starts with [L8/];
    what follows [L8/] is returned. *)
Definition after_L8 (s : string) : option string :=
  match s with
  | String a (String b (String c r)) =>
      if Ascii.eqb a "L" && Ascii.eqb b "8" && Ascii.eqb c "/" then Some r
      else None
  | _ => None
  end.

(** [pattern.search(s)]: the leftmost position where the pattern matches *)
Fixpoint search_L8 (s : string) : option string :=
  match after_L8 s with
  | Some r => Some r
  | None =>
      match s with
      | EmptyString => None
      | String _ s' => search_L8 s'
      end
  end.

Definition is_digit (c : ascii) : bool :=
  (Nat.leb 48 (nat_of_ascii c)) && (Nat.leb (nat_of_ascii c) 57).

(** The group [path]: the longest run of digits, the star being greedy *)
Fixpoint take_digits (s : string) : string :=
  match s with
  | EmptyString => EmptyString
  | String c s' => if is_digit c then String c (take_digits s') else EmptyString
  end.

(** The text starts with a digit. *)
Definition starts_with_digit (s : string) : bool :=
  match s with
  | EmptyString => false
  | String c _ => is_digit c
  end.




(** [int(s)] on a text of digits *)
Definition int_of_digits (s : string) : result Z :=
  match s with
  | EmptyString => raise ValueError "invalid literal for int() with base 10: ''"
  | _ =>
      match NilEmpty.uint_of_string s with
      | Some d => Ok (Z.of_N (N.of_uint d))
      | None =>
          raise ValueError ("invalid literal for int() with base 10: '" ++ s ++ "'")
      end
  end.

(** [ls8_subproduct(ds)], on [ds.uris] *)
Definition ls8_subproduct (uris : list string) : outcome Z :=
  match uris with
  | [] => RaisesIndexError "list index out of range"
  | uri :: _ =>
      match search_L8 uri with
      | None =>
          Raises (Raise AttributeError
                    (Some "'NoneType' object has no attribute 'group'"))
      | Some rest => of_result (int_of_digits (take_digits rest))
      end
  end.

(** A request without a [Referer] and without a request id, and a dict
    that already holds a [host] and a [layers] key. *)
Definition example_request : Request :=
  {| headers_get := fun name =>
       if String.eqb name "Host" then Some (VStr "ows.example.org")
       else if String.eqb name "Origin" then Some (VStr "https://map.example.org")
       else None;
     environ_get := fun _ => None;
     url_root := VStr "https://ows.example.org/" |}.

(** A dataset with a [red] band without [nodata], and an [extent] band. *)
Definition example_data : gmap string DataArray :=
  {[ "red" := {| values := [0; 7; 0; 255]%Z; attrs := ∅ |};
     "flags" := {| values := [0; 5; 7; 13]%Z; attrs := {[ "nodata" := 5%Z ]} |};
     "extent" := {| values := [0; 1; 1; 0]%Z; attrs := {[ "nodata" := 0%Z ]} |} ]}.

(** * Properties *)

(** ** Coordinate and time utilities *)

Section TimeUtilitiesFacts.

Variable dateutil_parse : string -> result pyval.

(** C6: when the metadata document holds a string at [extent.center_dt],
    [dataset_center_time] returns the timestamp parsed from it; when a key
    of that path is missing, it returns the dataset's computed centre time
    and raises nothing. *)
Theorem dataset_center_time_prefers_metadata :
  forall (st : store) (ds : Dataset),
    (forall s t,
        center_dt_present st (metadata_doc ds) s ->
        dateutil_parse s = Ok t ->
        dataset_center_time dateutil_parse st ds = Ok t) /\
    (center_dt_absent st (metadata_doc ds) ->
     dataset_center_time dateutil_parse st ds = Ok (center_time ds)).
Proof.
  intros st ds. unfold dataset_center_time. split.
  - intros s t (m & e & Hdoc & Hext & Hdt) Hparse.
    rewrite Hdoc. simpl. rewrite Hext. simpl. rewrite Hdt. simpl.
    rewrite Hparse. reflexivity.
  - intros (m & Hdoc & Hmiss). rewrite Hdoc. simpl.
    destruct Hmiss as [Hext | (e & Hext & Hdt)].
    + rewrite Hext. reflexivity.
    + rewrite Hext. simpl. rewrite Hdt. reflexivity.
Qed.

(** Only a missing key is caught: an [extent] that is no mapping makes the
    subscript raise [TypeError], which propagates. *)
Lemma dataset_center_time_extent_not_a_mapping :
  forall st m ct,
    dict_get "extent" (deref st m) = Some VNone ->
    exists e,
      dataset_center_time dateutil_parse st
        {| center_time := ct; metadata_doc := VDict m |} = Err e /\
      exn_cls e = TypeError.
Proof.
  intros st m ct H. unfold dataset_center_time. simpl. rewrite H. simpl.
  eexists. split; reflexivity.
Qed.

End TimeUtilitiesFacts.

(** On a document with the path and on one without it. *)
Example dataset_center_time_examples :
  let parse_iso := fun s => Ok (VObject ("datetime:" ++ s)) in
  let st := [[("extent", VDict 1)]; [("center_dt", VStr "2019-06-15T01:02:03")];
             [("lineage", VNone)]] in
  dataset_center_time parse_iso st
    {| center_time := VObject "computed"; metadata_doc := VDict 0 |}
  = Ok (VObject "datetime:2019-06-15T01:02:03") /\
  dataset_center_time parse_iso st
    {| center_time := VObject "computed"; metadata_doc := VDict 2 |}
  = Ok (VObject "computed").
Proof. split; reflexivity. Qed.

(** ** Timezone resolver *)

Section TimezoneFacts.

Variable coord : Type.
Variable closest_timezone_at : coord -> coord -> Z -> result (option string).
Variable timezone : string -> result tzinfo.

Abbreviation tz_for_coord' := (tz_for_coord coord closest_timezone_at timezone).
Abbreviation finds' := (finds coord closest_timezone_at).
Abbreviation finds_nothing' := (finds_nothing coord closest_timezone_at).

Lemma not__false tzn :
  not_ tzn = false -> exists n, tzn = Some n /\ n <> "".
Proof.
  destruct tzn as [n|]; simpl; [|discriminate].
  intros H. exists n. split; [reflexivity|].
  intros ->. discriminate.
Qed.

Lemma not__some n : n <> "" -> not_ (Some n) = false.
Proof.
  intros H. simpl. destruct (String.eqb_spec n ""); [contradiction|reflexivity].
Qed.

(** Closes a case of the analysis of [tz_for_coord]: the hypotheses about
    what the finder returned either contradict the case or give the goal. *)
Ltac tz_case :=
  intros;
  repeat match goal with
    | H : finds _ _ _ _ _ _ |- _ => destruct H as [? ?]
    | H : finds_nothing _ _ _ _ _ |- _ => destruct H as (? & ? & ?)
    end;
  repeat match goal with
    | H : ?n <> "" |- _ => apply not__some in H
    end;
  simpl;
  first [ congruence
        | left; reflexivity
        | right; reflexivity
        | split; congruence ].

(** C2: [tz_for_coord] queries at 9 degrees first.  When that query finds
    a zone it is the only query and nothing is printed.  When it finds
    nothing, one line is printed and exactly one more query is made, at 15
    degrees; when that finds nothing either, the result is the exception
    with the message about 15 degrees.  There are never more than these
    two queries, and a zone is returned only when one of them named it. *)
Theorem tz_for_coord_two_attempts :
  forall (lon lat : coord),
    let run := tz_for_coord' lon lat in
    (queries (fst run) = [9%Z] \/ queries (fst run) = [9%Z; 15%Z]) /\
    (forall n, finds' lon lat 9 n ->
               fst run = [Query 9] /\ snd run = timezone n) /\
    (finds_nothing' lon lat 9 ->
     fst run =
       [Query 9; Print "closest tz failed with delta 9deg"; Query 15]) /\
    (finds_nothing' lon lat 9 ->
     forall n, finds' lon lat 15 n -> snd run = timezone n) /\
    (finds_nothing' lon lat 9 -> finds_nothing' lon lat 15 ->
     snd run = Err (Raise Exception (Some "closest tz failed with delta 15deg"))) /\
    (forall tz, snd run = Ok tz ->
                exists d n, (d = 9%Z \/ d = 15%Z) /\ finds' lon lat d n /\
                            timezone n = Ok tz).
Proof.
  intros lon lat run. subst run.
  unfold tz_for_coord, query, print, io_lift, io_ret.
  destruct (closest_timezone_at lon lat 9) as [t9|e9] eqn:H9; simpl.
  2:{ split; [|split; [|split; [|split; [|split]]]]; tz_case. }
  destruct (not_ t9) eqn:N9; simpl.
  - destruct (closest_timezone_at lon lat 15) as [t15|e15] eqn:H15; simpl.
    2:{ split; [|split; [|split; [|split; [|split]]]]; tz_case. }
    destruct (not_ t15) eqn:N15; simpl.
    + split; [|split; [|split; [|split; [|split]]]]; tz_case.
    + destruct (not__false _ N15) as (n15 & -> & Hne15).
      unfold timezone_of.
      destruct (timezone n15) as [tz15|e] eqn:Htz; simpl;
        (split; [|split; [|split; [|split; [|split]]]]); try tz_case.
      intros tz Htz'. exists 15%Z, n15. unfold finds.
      repeat split; auto; congruence.
  - destruct (not__false _ N9) as (n9 & -> & Hne9).
    unfold timezone_of.
    destruct (timezone n9) as [tz9|e] eqn:Htz; simpl;
      (split; [|split; [|split; [|split; [|split]]]]); try tz_case.
    intros tz Htz'. exists 9%Z, n9. unfold finds.
    repeat split; auto; congruence.
Qed.

End TimezoneFacts.

(** ** Solar date calculator *)

Section SolarDateFacts.

Variable coord : Type.
Variable closest_timezone_at : coord -> coord -> Z -> result (option string).
Variable timezone : string -> result tzinfo.

Abbreviation range_of g d :=
  (local_solar_date_range coord closest_timezone_at timezone g d).

Lemma local_solar_date_range_inv g d s e :
  snd (range_of g d) = Ok (s, e) ->
  exists tz,
    snd (tz_for_coord coord closest_timezone_at timezone
           (fst (centroid_coords0 g)) (snd (centroid_coords0 g))) = Ok tz /\
    s = astimezone (datetime_new d 0 0 0 tz) utc /\
    e = astimezone (datetime_new d 23 59 59 tz) utc.
Proof.
  unfold local_solar_date_range, io_bind, io_ret.
  destruct (tz_for_coord _ _ _ _ _) as [tr [tz|err]]; simpl.
  - intros H. inversion H. exists tz. auto.
  - discriminate.
Qed.

(** X1: the two bounds are always 23:59:59 apart: both are built with the same
    zone object, whose own offset is subtracted from each. *)
Lemma local_solar_date_range_duration g d s e :
  snd (range_of g d) = Ok (s, e) -> timedelta e s = 86399%Z.
Proof.
  intros H. destruct (local_solar_date_range_inv _ _ _ _ H) as (tz & _ & -> & ->).
  unfold timedelta, astimezone, utc_instant, datetime_new. simpl. lia.
Qed.

(** X2: converted back to the zone, a bound falls on the input date when the
    zone's table gives, at that bound, the offset of the zone object. *)
Lemma local_solar_date_range_same_date g d s e tz :
  snd (tz_for_coord coord closest_timezone_at timezone
         (fst (centroid_coords0 g)) (snd (centroid_coords0 g))) = Ok tz ->
  snd (range_of g d) = Ok (s, e) ->
  (utcoffset_at tz (utc_instant s) = _utcoffset tz ->
   date_of (astimezone s tz) = toordinal d) /\
  (utcoffset_at tz (utc_instant e) = _utcoffset tz ->
   date_of (astimezone e tz) = toordinal d).
Proof.
  intros Htz H.
  destruct (local_solar_date_range_inv _ _ _ _ H) as (tz' & Htz' & -> & ->).
  assert (tz' = tz) as -> by congruence.
  unfold date_of, astimezone, utc_instant, datetime_new; simpl.
  split; intros ->.
  - match goal with
    | |- (?x / _)%Z = _ => replace x with (toordinal d * 86400)%Z by lia
    end.
    apply Z.div_mul. lia.
  - match goal with
    | |- (?x / _)%Z = _ => replace x with (86399 + toordinal d * 86400)%Z by lia
    end.
    rewrite Z.div_add by lia. reflexivity.
Qed.

End SolarDateFacts.

(** C1, on the code: for a geobox centred near Sydney and the date
    2019-06-15 the zone resolves, and the bounds are 23:59:59 apart, but
    the start bound is 2019-06-14 13:55:00 UTC, which in the zone is
    23:55:00 of 14 June: it falls on the day before the input date. *)
Theorem local_solar_date_range_sydney_starts_the_day_before :
  exists s e,
    snd (local_solar_date_range Z example_finder example_timezone
           {| centroid_coords0 := (151%Z, (-34)%Z) |}
           {| year := 2019; month := 6; day := 15 |}) = Ok (s, e) /\
    timedelta e s = 86399%Z /\
    wall s = (toordinal {| year := 2019; month := 6; day := 14 |} * 86400
              + 13 * 3600 + 55 * 60)%Z /\
    wall (astimezone s sydney)
    = (toordinal {| year := 2019; month := 6; day := 14 |} * 86400
       + 23 * 3600 + 55 * 60)%Z /\
    date_of (astimezone s sydney)
    = toordinal {| year := 2019; month := 6; day := 14 |} /\
    date_of (astimezone s sydney)
    <> toordinal {| year := 2019; month := 6; day := 15 |} /\
    date_of (astimezone e sydney)
    = toordinal {| year := 2019; month := 6; day := 15 |}.
Proof.
  eexists. eexists. split; [reflexivity|].
  repeat split; try (vm_compute; reflexivity).
  vm_compute. discriminate.
Qed.

(** ** Function resolution *)

Lemma rsplit_dot_no_dot f : has_dot f = false -> rsplit_dot f = [f].
Proof.
  induction f as [|c f IH]; simpl; [reflexivity|].
  intros H. apply orb_false_iff in H as [Hc Hf].
  rewrite (IH Hf), Hc. reflexivity.
Qed.

Lemma rsplit_dot_app m f :
  has_dot f = false -> rsplit_dot (m ++ "." ++ f) = [m; f].
Proof.
  intros Hf. induction m as [|c m IH].
  - change ("" ++ "." ++ f) with (String "." f). cbn [rsplit_dot].
    rewrite (rsplit_dot_no_dot f Hf). reflexivity.
  - change (String c m ++ "." ++ f) with (String c (m ++ "." ++ f)).
    cbn [rsplit_dot]. rewrite IH. reflexivity.
Qed.

Section ResolutionFacts.

Variable import_module : string -> result dict.

(** C5, as the code has it: for a name [mod_name.func_name] whose module
    imports, resolution fails with an [AttributeError] whose message names
    the module and the attribute when the attribute does not exist, and
    with an [AssertionError] that carries no message when the attribute
    exists and is not callable. *)
Theorem get_function_failures :
  forall (mod_name func_name : string) (ns : dict),
    has_dot func_name = false ->
    import_module mod_name = Ok ns ->
    (dict_get func_name ns = None ->
     get_function import_module (VStr (mod_name ++ "." ++ func_name))
     = Err (Raise AttributeError
              (Some ("module '" ++ mod_name ++ "' has no attribute '"
                     ++ func_name ++ "'")))) /\
    (forall v,
        dict_get func_name ns = Some v -> callable v = false ->
        get_function import_module (VStr (mod_name ++ "." ++ func_name))
        = Err (Raise AssertionError None)).
Proof.
  intros mod_name func_name ns Hdot Himp.
  unfold get_function. cbn [is_None callable negb andb].
  rewrite (rsplit_dot_app mod_name func_name Hdot), Himp.
  simpl. unfold getattr_module.
  split.
  - intros ->. reflexivity.
  - intros v -> Hc. simpl. rewrite Hc. reflexivity.
Qed.

(** X7: a name is split at its last dot: when the part before it imports
    and the part after it names a callable of that module, that callable
    is returned as it is. *)
Lemma get_function_resolves mod_name func_name ns v :
  has_dot func_name = false ->
  import_module mod_name = Ok ns ->
  dict_get func_name ns = Some v -> callable v = true ->
  get_function import_module (VStr (mod_name ++ "." ++ func_name)) = Ok v.
Proof.
  intros Hdot Himp Hget Hc. unfold get_function.
  cbn [is_None callable negb andb].
  rewrite (rsplit_dot_app mod_name func_name Hdot), Himp.
  simpl. unfold getattr_module.
  rewrite Hget. simpl. rewrite Hc. reflexivity.
Qed.

End ResolutionFacts.

Lemma get_function_failures_witness :
  get_function example_modules (VStr "math.tau")
  = Err (Raise AttributeError (Some "module 'math' has no attribute 'tau'")) /\
  (forall v,
      dict_get "pi" [("pow", VCallable "math.pow"); ("pi", VObject "float")]
      = Some v -> callable v = false ->
      get_function example_modules (VStr "math.pi")
      = Err (Raise AssertionError None)).
Proof.
  split.
  - apply (get_function_failures example_modules "math" "tau"
             [("pow", VCallable "math.pow"); ("pi", VObject "float")]);
      reflexivity.
  - apply (get_function_failures example_modules "math" "pi"
             [("pow", VCallable "math.pow"); ("pi", VObject "float")]);
      reflexivity.
Defined.

(** C5 as stated fails: [math.pi] exists and is not callable, and the
    error raised for it has no message at all. *)
Lemma get_function_not_callable_has_no_message :
  exists e,
    get_function example_modules (VStr "math.pi") = Err e /\
    exn_cls e = AssertionError /\
    exn_msg e = None.
Proof. eexists. repeat split. Qed.

(** ** Data collections *)

Section CollectionFacts.

Variables T P : Type.

Lemma collapse_to_single_empty (k : klass) :
  collapse_to_single (collection_new (T:=T) (P:=P) k) = Ok None.
Proof. reflexivity. Qed.

(** On the base class the payload of the first added entry comes back,
    whatever was added after it. *)
Lemma collapse_to_single_first (t : T) (p : P) (more : list (T * P)) :
  collapse_to_single (add_all (add_time (collection_new DataCollection) t p) more)
  = Ok (Some p).
Proof.
  unfold collapse_to_single.
  assert (forall c : collection T P,
             cls c = DataCollection ->
             (exists tl, _collections c = DataTimeData t p :: tl) ->
             cls (add_all c more) = DataCollection /\
             exists tl, _collections (add_all c more) = DataTimeData t p :: tl)
    as Hinv.
  { induction more as [|[t' p'] more IH]; intros c Hc Hhd; simpl; [auto|].
    apply IH; simpl; [exact Hc|].
    destruct Hhd as [tl ->]. eexists. reflexivity. }
  destruct (Hinv (add_time (collection_new DataCollection) t p)) as (_ & tl & ->).
  - reflexivity.
  - exists []. reflexivity.
  - reflexivity.
Qed.

End CollectionFacts.

(** C7, on the code: a [DatasetCollection] keeps its payloads under the
    attribute [datasets], and the inherited [collapse_to_single] reads the
    attribute [data]: with one entry added it raises [AttributeError]
    where the payload of that entry was to be returned. *)
Theorem collapse_to_single_dataset_collection_raises :
  collapse_to_single
    (add_time (collection_new DatasetCollection) 2019%Z
       ({[ 1; 2 ]} : gset dataset_ref))
  = Err (Raise AttributeError
           (Some "'TimeData' object has no attribute 'data'")).
Proof. reflexivity. Qed.

Section DatasetCollectionFacts.

Variable T : Type.

Abbreviation datasets_collection := (collection T (gset dataset_ref)).

Lemma result_map_app {A B} (f : A -> result B) (l : list A) (a : A) bs b :
  result_map f l = Ok bs -> f a = Ok b ->
  result_map f (l ++ [a])%list = Ok (bs ++ [b])%list.
Proof.
  revert bs. induction l as [|x l IH]; intros bs; simpl.
  - intros H Hf. inversion H. rewrite Hf. reflexivity.
  - destruct (f x) as [y|e]; simpl; [|discriminate].
    destruct (result_map f l) as [ys|e]; simpl; [|discriminate].
    intros H Hf. inversion H. rewrite (IH ys eq_refl Hf). reflexivity.
Qed.

Lemma foldr_add_app (l : list nat) (n : nat) :
  foldr Nat.add 0 (l ++ [n])%list = foldr Nat.add 0 l + n.
Proof. induction l as [|x l IH]; simpl; lia. Qed.

Lemma DatasetCollection_len_add_time (c : datasets_collection) t s n :
  cls c = DatasetCollection ->
  DatasetCollection_len c = Ok n ->
  DatasetCollection_len (add_time c t s) = Ok (n + size s).
Proof.
  unfold DatasetCollection_len, collection_len. simpl.
  intros Hc. rewrite Hc. simpl.
  destruct (result_map _ (_collections c)) as [ns|e] eqn:Hmap; simpl; [|discriminate].
  intros H. inversion H; subst.
  rewrite (result_map_app _ _ (DatasetTimeData t s) ns (size s) Hmap eq_refl).
  simpl. rewrite foldr_add_app. reflexivity.
Qed.

Lemma add_all_cls {Q} (c : collection T Q) adds : cls (add_all c adds) = cls c.
Proof.
  revert c. induction adds as [|a adds IH]; intros c; simpl; [reflexivity|].
  rewrite IH. reflexivity.
Qed.

Lemma DatasetCollection_len_add_all (c : datasets_collection) adds n :
  cls c = DatasetCollection ->
  DatasetCollection_len c = Ok n ->
  DatasetCollection_len (add_all c adds) = Ok (n + total_size adds).
Proof.
  revert c n. induction adds as [|[t s] adds IH]; intros c n Hc Hn; simpl.
  - unfold total_size. simpl. rewrite Nat.add_0_r. exact Hn.
  - rewrite (IH (add_time c t s) (n + size s)).
    + unfold total_size. simpl. f_equal. lia.
    + exact Hc.
    + apply DatasetCollection_len_add_time; assumption.
Qed.

(** C8: the length of a [DatasetCollection] is the sum of the sizes of the
    dataset sets added through [add_time], and one more [add_time] with a
    set of [n] datasets makes it longer by exactly [n]. *)
Theorem DatasetCollection_len_is_total_dataset_count :
  forall (adds : list (T * gset dataset_ref)),
    let c := add_all (collection_new DatasetCollection) adds in
    DatasetCollection_len c = Ok (total_size adds) /\
    forall t s,
      DatasetCollection_len (add_time c t s) = Ok (total_size adds + size s).
Proof.
  intros adds c.
  assert (DatasetCollection_len c = Ok (total_size adds)) as Hlen.
  { subst c.
    rewrite (DatasetCollection_len_add_all _ adds 0); reflexivity. }
  split; [exact Hlen|].
  intros t s. apply DatasetCollection_len_add_time; [|exact Hlen].
  subst c. apply add_all_cls.
Qed.

End DatasetCollectionFacts.

(** Two calls of [add_time], five datasets. *)
Example DatasetCollection_len_example :
  DatasetCollection_len
    (add_all (collection_new DatasetCollection)
       [(1%Z, ({[ 1; 2; 3 ]} : gset dataset_ref));
        (2%Z, ({[ 3; 4 ]} : gset dataset_ref))])
  = Ok 5.
Proof. vm_compute. reflexivity. Qed.

(** ** Dict objects and the store *)

Lemma dict_get_set k k' v d :
  dict_get k (dict_set k' v d) = if String.eqb k k' then Some v else dict_get k d.
Proof.
  induction d as [|[k0 v0] d IH]; simpl.
  - destruct (String.eqb k k'); reflexivity.
  - destruct (String.eqb_spec k' k0) as [->|Hne]; simpl.
    + destruct (String.eqb k k0); reflexivity.
    + rewrite IH. destruct (String.eqb_spec k k0) as [->|Hne'].
      * destruct (String.eqb_spec k0 k'); [congruence|reflexivity].
      * reflexivity.
Qed.

Lemma dict_get_app k d d' :
  dict_get k (d ++ d')%list
  = match dict_get k d with Some v => Some v | None => dict_get k d' end.
Proof.
  induction d as [|[k0 v0] d IH]; simpl; [reflexivity|].
  destruct (String.eqb k k0); [reflexivity|exact IH].
Qed.

Lemma dict_get_update k d other :
  dict_get k (dict_update d other)
  = match dict_get k (rev other) with
    | Some v => Some v
    | None => dict_get k d
    end.
Proof.
  unfold dict_update. revert d.
  induction other as [|[k1 v1] other IH]; intros d; simpl; [reflexivity|].
  rewrite IH, dict_get_app, dict_get_set. simpl.
  destruct (dict_get k (rev other)); [reflexivity|].
  destruct (String.eqb k k1); reflexivity.
Qed.

Lemma dict_get_not_key k d : ~ In k (map fst d) -> dict_get k d = None.
Proof.
  induction d as [|[k0 v0] d IH]; simpl; [reflexivity|].
  intros H. destruct (String.eqb_spec k k0) as [->|Hne].
  - exfalso. apply H. left. reflexivity.
  - apply IH. intros Hin. apply H. right. exact Hin.
Qed.

(** With every key once, the order of the entries does not matter. *)
Lemma dict_get_rev k d : NoDup (map fst d) -> dict_get k (rev d) = dict_get k d.
Proof.
  induction d as [|[k0 v0] d IH]; simpl; [reflexivity|].
  intros Hnd. apply NoDup_cons in Hnd as [Hnotin Hnd].
  rewrite dict_get_app, (IH Hnd). simpl.
  destruct (String.eqb_spec k k0) as [->|Hne].
  - rewrite dict_get_not_key; [reflexivity|].
    rewrite <- list_elem_of_In. exact Hnotin.
  - destruct (dict_get k d); reflexivity.
Qed.

Lemma deref_app_l st st' l : l < length st -> deref (st ++ st')%list l = deref st l.
Proof. intros H. unfold deref. rewrite lookup_app_l by exact H. reflexivity. Qed.

Lemma deref_app_new st d : deref (st ++ [d])%list (length st) = d.
Proof.
  unfold deref. rewrite lookup_app_r by lia.
  rewrite Nat.sub_diag. reflexivity.
Qed.

Lemma deref_insert_eq st l d : l < length st -> deref (<[l := d]> st) l = d.
Proof. intros H. unfold deref. rewrite list_lookup_insert_eq by exact H. reflexivity. Qed.

Lemma deref_insert_ne st l l' d : l <> l' -> deref (<[l := d]> st) l' = deref st l'.
Proof. intros H. unfold deref. rewrite list_lookup_insert_ne by exact H. reflexivity. Qed.

Lemma truthy_app st st' v : valid st v -> truthy (st ++ st')%list v = truthy st v.
Proof.
  destruct v; simpl; try reflexivity.
  intros H. rewrite deref_app_l by exact H. reflexivity.
Qed.

(** ** Function wrapper *)

Lemma dict_get_merged k bound kwargs :
  NoDup (map fst kwargs) ->
  dict_get k (merged bound kwargs)
  = match dict_get k kwargs with
    | Some v => Some v
    | None => dict_get k bound
    end.
Proof.
  intros Hnd. unfold merged.
  destruct kwargs as [|kv kwargs]; [reflexivity|].
  destruct bound as [|b bound].
  - cbn [is_empty negb andb]. destruct (dict_get k (kv :: kwargs)); reflexivity.
  - cbn [is_empty negb andb].
    rewrite dict_get_update, (dict_get_rev k (kv :: kwargs) Hnd). reflexivity.
Qed.

(** Reads of the store after the allocations and the update of a call. *)
Ltac store_simpl :=
  repeat first
    [ rewrite deref_insert_eq by (rewrite ?length_app; simpl; lia)
    | rewrite deref_insert_ne by (rewrite ?length_app; simpl; lia)
    | rewrite deref_app_new
    | rewrite <- length_app, deref_app_new
    | rewrite deref_app_l by (rewrite ?length_app; simpl; lia) ].

Lemma prepare_ok self args kwargs st l dl :
  _kwargs self = VDict l -> l < length st ->
  _args self = VList dl ->
  valid st (product_cfg self) ->
  let kw0 := merged (deref st l) kwargs in
  let inject := truthy st (product_cfg self) in
  exists st',
    prepare self args kwargs st
    = Ok ({| callee := _func self;
             positional := (args ++ dl)%list;
             keywords := if inject
                         then dict_set "product_cfg" (product_cfg self) kw0
                         else kw0 |}, st') /\
    (forall l', l' < length st -> l' <> l -> deref st' l' = deref st l') /\
    deref st' l = if inject && is_empty kwargs
                  then dict_set "product_cfg" (product_cfg self) (deref st l)
                  else deref st l.
Proof.
  intros Hk Hl Ha Hv kw0 inject. subst kw0 inject.
  unfold prepare, alloc. rewrite Hk, Ha.
  cbn [truthy]. rewrite (deref_app_l st [kwargs] l Hl).
  assert (forall (x : list pyval), (x ++ [])%list = x) as Hnil
      by (intros x; apply app_nil_r).
  unfold merged.
  destruct kwargs as [|kv kwargs]; cbn [is_empty negb andb].
  - (* no call-site keywords: calling_kwargs is self._kwargs itself *)
    cbn [bind]. rewrite (truthy_app st [[]] _ Hv).
    destruct (truthy st (product_cfg self)) eqn:Ht; cbn [bind setitem andb];
      (eexists; split; [|split];
       [ destruct args, dl; cbn [is_empty negb andb unpack iterate bind mapping];
         rewrite ?Hnil; store_simpl; reflexivity
       | intros l' Hl' Hne; store_simpl; reflexivity
       | store_simpl; reflexivity ]).
  - destruct (deref st l) as [|b bound] eqn:Hb; cbn [is_empty negb andb bind].
    + (* no bound keywords: calling_kwargs is the call's own dict *)
      rewrite (truthy_app st _ _ Hv).
      destruct (truthy st (product_cfg self)) eqn:Ht; cbn [bind setitem];
        (eexists; split; [|split];
         [ destruct args, dl; cbn [is_empty negb andb unpack iterate bind mapping];
           rewrite ?Hnil; store_simpl; reflexivity
         | intros l' Hl' Hne; store_simpl; reflexivity
         | store_simpl; exact Hb ]).
    + (* both: calling_kwargs is an updated copy of self._kwargs *)
      unfold copy_update, alloc. rewrite (deref_app_l st _ l Hl), Hb.
      cbn [bind].
      rewrite (truthy_app (st ++ [kv :: kwargs]) _ (product_cfg self))
        by (destruct (product_cfg self); simpl in *; try exact I;
            rewrite length_app; lia).
      rewrite (truthy_app st _ _ Hv).
      destruct (truthy st (product_cfg self)) eqn:Ht; cbn [bind setitem];
        (eexists; split; [|split];
         [ destruct args, dl; cbn [is_empty negb andb unpack iterate bind mapping];
           rewrite ?Hnil; store_simpl; reflexivity
         | intros l' Hl' Hne; store_simpl; reflexivity
         | store_simpl; exact Hb ]).
Qed.

Lemma dict_get_deref_valid k st l v :
  dict_get k (deref st l) = Some v -> l < length st.
Proof.
  unfold deref. intros H.
  destruct (st !! l) as [d|] eqn:Hl.
  - apply lookup_lt_Some in Hl. exact Hl.
  - simpl in H. discriminate.
Qed.

(** C9: given a callable as the function configuration, the constructor
    raises [ConfigException], whatever the product configuration and the
    store: no wrapper is built. *)
Theorem init_rejects_callable :
  forall (import_module : string -> result dict)
         (product_cfg0 func_cfg : pyval) (st : store),
    callable func_cfg = true ->
    exists msg,
      __init__ import_module product_cfg0 func_cfg st
      = Err (Raise ConfigException (Some msg)).
Proof.
  intros import_module pc func_cfg st Hc. unfold __init__. rewrite Hc.
  eexists. reflexivity.
Qed.

Lemma init_rejects_callable_witness :
  exists msg,
    __init__ example_modules (VObject "layer") (VCallable "math.pow") []
    = Err (Raise ConfigException (Some msg)).
Proof.
  apply (init_rejects_callable example_modules (VObject "layer")
           (VCallable "math.pow") []).
  reflexivity.
Defined.

(** What the constructor stores for a structured record. *)
Lemma init_record import_module pc c st self st' :
  __init__ import_module pc (VDict c) st = Ok (self, st') ->
  c < length st /\
  st' = (st ++ [[]])%list /\
  _args self = dict_get_default st c "args" (VList []) /\
  _kwargs self = dict_get_default st c "kwargs" (VDict (length st)) /\
  product_cfg self
  = (if truthy st' (dict_get_default st c "pass_product_cfg" (VBool false))
     then pc else VNone).
Proof.
  unfold __init__, alloc. cbn [callable subscript].
  destruct (dict_get "function" (deref st c)) as [name|] eqn:Hname;
    [|discriminate].
  pose proof (dict_get_deref_valid _ _ _ _ Hname) as Hc.
  cbn [bind]. destruct (get_function import_module name) as [f|e];
    [|discriminate].
  cbn [bind]. unfold dict_get_default.
  rewrite (deref_app_l st [[]] c Hc).
  intros H. inversion H; subst; clear H. simpl. auto.
Qed.

(** C3, as the code has it: a wrapper built from a structured record
    whose [pass_product_cfg] is true retains the product configuration,
    and every call made while that configuration is truthy passes it as
    the keyword [product_cfg], whatever the caller gave under that name. *)
Theorem product_cfg_is_injected :
  forall (import_module : string -> result dict) (pc : pyval) (c : loc)
         (st0 : store) (self : t) (st1 : store)
         (st : store) (args : list pyval) (kwargs : dict) l dl,
    dict_get "pass_product_cfg" (deref st0 c) = Some (VBool true) ->
    __init__ import_module pc (VDict c) st0 = Ok (self, st1) ->
    _kwargs self = VDict l -> l < length st ->
    _args self = VList dl ->
    valid st pc -> truthy st pc = true ->
    product_cfg self = pc /\
    exists i st',
      prepare self args kwargs st = Ok (i, st') /\
      dict_get "product_cfg" (keywords i) = Some pc.
Proof.
  intros import_module pc c st0 self st1 st args kwargs l dl
         Hpass Hinit Hk Hl Ha Hv Ht.
  destruct (init_record _ _ _ _ _ _ Hinit) as (Hc & -> & _ & _ & Hpc).
  unfold dict_get_default in Hpc. rewrite Hpass in Hpc. simpl in Hpc.
  split; [exact Hpc|].
  rewrite <- Hpc in Hv, Ht.
  destruct (prepare_ok self args kwargs st l dl Hk Hl Ha Hv) as (st' & Hprep & _).
  rewrite Ht in Hprep.
  eexists. exists st'. split; [exact Hprep|].
  simpl. rewrite dict_get_set. simpl. congruence.
Qed.

(** C4, as the code has it: the positional arguments are the call's own
    followed by the bound ones; a keyword is looked up in the call's
    keywords first and in the bound ones second, except that, while the
    wrapper holds a truthy product configuration, the keyword
    [product_cfg] is that configuration. *)
Theorem call_arguments :
  forall (self : t) (args : list pyval) (kwargs : dict) (st : store) l dl,
    _kwargs self = VDict l -> l < length st ->
    _args self = VList dl ->
    valid st (product_cfg self) ->
    NoDup (map fst kwargs) ->
    exists i st',
      prepare self args kwargs st = Ok (i, st') /\
      callee i = _func self /\
      positional i = (args ++ dl)%list /\
      forall k,
        dict_get k (keywords i)
        = if truthy st (product_cfg self) && String.eqb k "product_cfg"
          then Some (product_cfg self)
          else match dict_get k kwargs with
               | Some v => Some v
               | None => dict_get k (deref st l)
               end.
Proof.
  intros self args kwargs st l dl Hk Hl Ha Hv Hnd.
  destruct (prepare_ok self args kwargs st l dl Hk Hl Ha Hv) as (st' & Hprep & _).
  eexists. exists st'. split; [exact Hprep|].
  cbn [callee positional keywords]. repeat split.
  intros k. destruct (truthy st (product_cfg self)); cbn [andb].
  - rewrite dict_get_set.
    destruct (String.eqb k "product_cfg"); [reflexivity|].
    apply dict_get_merged. exact Hnd.
  - apply dict_get_merged. exact Hnd.
Qed.

Example init_pow_wrapper :
  __init__ example_modules VNone (VDict 0) pow_cfg_store
  = Ok (pow_wrapper, (pow_cfg_store ++ [[]])%list).
Proof. reflexivity. Qed.

Example init_layer_wrapper :
  __init__ example_modules (VObject "layer") (VDict 0) layer_cfg_store
  = Ok (layer_wrapper, (layer_cfg_store ++ [[]])%list).
Proof. reflexivity. Qed.

(** The wrapper bound with [args: [2]] over [math.pow], called with 3,
    computes 3 to the power 2. *)
Example call_pow_wrapper :
  exists st',
    __call__ example_functions pow_wrapper [VInt 3] []
      (pow_cfg_store ++ [[]])%list
    = Ok (VInt 9, st').
Proof. eexists. reflexivity. Qed.

Lemma product_cfg_is_injected_witness :
  product_cfg layer_wrapper = VObject "layer" /\
  exists i st',
    prepare layer_wrapper [VInt 3; VInt 2] [("product_cfg", VInt 7)]
      (layer_cfg_store ++ [[]])%list = Ok (i, st') /\
    dict_get "product_cfg" (keywords i) = Some (VObject "layer").
Proof.
  apply (product_cfg_is_injected example_modules (VObject "layer") 0
           layer_cfg_store layer_wrapper (layer_cfg_store ++ [[]])%list
           (layer_cfg_store ++ [[]])%list [VInt 3; VInt 2]
           [("product_cfg", VInt 7)] 1 []);
    [ reflexivity | reflexivity | reflexivity | simpl; lia | reflexivity
    | exact I | reflexivity ].
Defined.

(** C3 as stated fails: with [pass_product_cfg] true and an empty dict as
    the product configuration, a call without keywords passes no
    [product_cfg], and a call that gives one has its own value passed. *)
Lemma empty_product_cfg_is_not_injected :
  exists self st i st' j st'',
    __init__ example_modules (VDict 1) (VDict 0) empty_cfg_store = Ok (self, st) /\
    dict_get "pass_product_cfg" (deref empty_cfg_store 0) = Some (VBool true) /\
    product_cfg self = VDict 1 /\
    prepare self [VInt 3; VInt 2] [] st = Ok (i, st') /\
    dict_get "product_cfg" (keywords i) = None /\
    prepare self [VInt 3; VInt 2] [("product_cfg", VInt 7)] st = Ok (j, st'') /\
    dict_get "product_cfg" (keywords j) = Some (VInt 7).
Proof. do 6 eexists. repeat split. Qed.

Lemma call_arguments_witness :
  exists i st',
    prepare pow_wrapper [VInt 3] [] (pow_cfg_store ++ [[]])%list = Ok (i, st') /\
    callee i = VCallable "math.pow" /\
    positional i = [VInt 3; VInt 2] /\
    forall k,
      dict_get k (keywords i)
      = if false && String.eqb k "product_cfg"
        then Some VNone
        else match dict_get k [] with
             | Some v => Some v
             | None => dict_get k []
             end.
Proof.
  apply (call_arguments pow_wrapper [VInt 3] [] (pow_cfg_store ++ [[]])%list
           1 [VInt 2]);
    [ reflexivity | simpl; lia | reflexivity | exact I | constructor ].
Defined.

(** C4 as stated fails: the bound keywords are empty and the call gives
    [product_cfg=7], yet the function receives the retained product
    configuration under that keyword, not the call's value. *)
Lemma call_site_product_cfg_does_not_win :
  exists i st',
    mapping (layer_cfg_store ++ [[]])%list (_kwargs layer_wrapper) = Ok [] /\
    prepare layer_wrapper [VInt 3; VInt 2] [("product_cfg", VInt 7)]
      (layer_cfg_store ++ [[]])%list = Ok (i, st') /\
    dict_get "product_cfg" (merged [] [("product_cfg", VInt 7)]) = Some (VInt 7) /\
    dict_get "product_cfg" (keywords i) = Some (VObject "layer") /\
    dict_get "product_cfg" (keywords i) <> Some (VInt 7).
Proof.
  do 2 eexists. repeat split. simpl. discriminate.
Qed.

(** C10, on the code: a call without keywords on a wrapper that holds a
    truthy product configuration binds [calling_kwargs] to the wrapper's
    own [_kwargs] dict and writes [product_cfg] into it: the bound
    keywords are empty before the call and hold one entry after it. *)
Theorem call_writes_product_cfg_into_bound_kwargs :
  exists i st',
    __init__ example_modules (VObject "layer") (VDict 0) layer_cfg_store
    = Ok (layer_wrapper, (layer_cfg_store ++ [[]])%list) /\
    prepare layer_wrapper [VInt 3; VInt 2] [] (layer_cfg_store ++ [[]])%list
    = Ok (i, st') /\
    mapping (layer_cfg_store ++ [[]])%list (_kwargs layer_wrapper) = Ok [] /\
    mapping st' (_kwargs layer_wrapper)
    = Ok [("product_cfg", VObject "layer")].
Proof. do 2 eexists. repeat split. Qed.

(** X22: the bound keywords change in exactly that case: a call that gives
    keywords, or a wrapper without a truthy product configuration, leaves
    every dict of the store as it was. *)
Lemma call_leaves_bound_kwargs self args kwargs st l dl :
  _kwargs self = VDict l -> l < length st ->
  _args self = VList dl ->
  valid st (product_cfg self) ->
  truthy st (product_cfg self) && is_empty kwargs = false ->
  exists i st',
    prepare self args kwargs st = Ok (i, st') /\
    forall l', l' < length st -> deref st' l' = deref st l'.
Proof.
  intros Hk Hl Ha Hv Hno.
  destruct (prepare_ok self args kwargs st l dl Hk Hl Ha Hv)
    as (st' & Hprep & Hother & Hself).
  rewrite Hno in Hself.
  eexists. exists st'. split; [exact Hprep|].
  intros l' Hl'. destruct (Nat.eq_dec l' l) as [->|Hne]; auto.
Qed.

(** * Further properties *)

(** ** Solar date range and local date *)

Section SolarDateMoreFacts.

Variable coord : Type.
Variable closest_timezone_at : coord -> coord -> Z -> result (option string).
Variable timezone : string -> result tzinfo.

Abbreviation resolve g :=
  (tz_for_coord coord closest_timezone_at timezone
     (fst (centroid_coords0 g)) (snd (centroid_coords0 g))).


(** X4: [coord_date] returns the same instant it was given, read on the
    wall clock of the zone resolved at the coordinate. *)
Theorem coord_date_keeps_the_instant :
  forall (time : datetime) (lon lat : coord) (local : datetime),
    snd (coord_date coord closest_timezone_at timezone time lon lat) = Ok local ->
    utc_instant local = utc_instant time /\
    exists tz,
      snd (tz_for_coord coord closest_timezone_at timezone lon lat) = Ok tz /\
      wall local = (utc_instant time + utcoffset_at tz (utc_instant time))%Z /\
      zone (dt_tzinfo local) = zone tz.
Proof.
  intros time lon lat local. unfold coord_date, io_bind, io_ret.
  destruct (tz_for_coord _ _ _ _ _) as [tr [tz|err]]; simpl; [|discriminate].
  intros H. inversion H; subst; clear H. split.
  - unfold utc_instant, astimezone. simpl. unfold utc_instant. lia.
  - exists tz. repeat split.
Qed.

Section LocalDateFacts.

Variable dateutil_parse : string -> result pyval.
Variable dataset_center_coords : Dataset -> result (coord * coord).
Variable datetime_of : pyval -> datetime.

Abbreviation local_date' :=
  (local_date coord closest_timezone_at timezone dateutil_parse
     dataset_center_coords datetime_of).

(** X5: when the centroid of a dataset resolves to a zone, [local_date]
    without a zone gives the result of [local_date] with that zone; and
    with a zone given, no query is sent and nothing is printed. *)
Theorem local_date_explicit_zone_agrees :
  forall (st : store) (ds : Dataset) (c : coord * coord) (tz : tzinfo),
    dataset_center_coords ds = Ok c ->
    snd (tz_for_coord coord closest_timezone_at timezone (fst c) (snd c)) = Ok tz ->
    snd (local_date' st ds None) = snd (local_date' st ds (Some tz)) /\
    fst (local_date' st ds (Some tz)) = [].
Proof.
  intros st ds c tz Hc Htz.
  unfold local_date, coord_date, io_bind, io_lift, io_ret.
  destruct (dataset_center_time dateutil_parse st ds) as [dt|e]; simpl.
  - rewrite Hc. simpl.
    destruct (tz_for_coord _ _ _ _ _) as [tr [tz'|err]]; simpl in *.
    + inversion Htz; subst. split; reflexivity.
    + discriminate.
  - split; reflexivity.
Qed.

End LocalDateFacts.

End SolarDateMoreFacts.

Lemma local_solar_date_range_duration_witness :
  timedelta
    (astimezone (datetime_new {| year := 2019; month := 6; day := 15 |} 23 59 59 sydney) utc)
    (astimezone (datetime_new {| year := 2019; month := 6; day := 15 |} 0 0 0 sydney) utc)
  = 86399%Z.
Proof.
  apply (local_solar_date_range_duration Z example_finder example_timezone
           {| centroid_coords0 := (151%Z, (-34)%Z) |}
           {| year := 2019; month := 6; day := 15 |}).
  reflexivity.
Defined.

Lemma local_solar_date_range_same_date_witness :
  date_of (astimezone
             (astimezone (datetime_new {| year := 2019; month := 6; day := 15 |} 0 0 0 utc) utc)
             utc)
  = toordinal {| year := 2019; month := 6; day := 15 |} /\
  date_of (astimezone
             (astimezone (datetime_new {| year := 2019; month := 6; day := 15 |} 23 59 59 utc) utc)
             utc)
  = toordinal {| year := 2019; month := 6; day := 15 |}.
Proof.
  destruct (local_solar_date_range_same_date Z
              (fun _ _ _ => Ok (Some "UTC")) example_timezone
              {| centroid_coords0 := (0%Z, 0%Z) |}
              {| year := 2019; month := 6; day := 15 |}
              (astimezone (datetime_new {| year := 2019; month := 6; day := 15 |} 0 0 0 utc) utc)
              (astimezone (datetime_new {| year := 2019; month := 6; day := 15 |} 23 59 59 utc) utc)
              utc eq_refl eq_refl) as [Hs He].
  split; [apply Hs | apply He]; reflexivity.
Defined.

Lemma coord_date_keeps_the_instant_witness :
  let time := datetime_new {| year := 2019; month := 6; day := 14 |} 13 55 0 utc in
  utc_instant (astimezone time sydney) = utc_instant time /\
  exists tz,
    snd (tz_for_coord Z example_finder example_timezone 151%Z (-34)%Z) = Ok tz /\
    wall (astimezone time sydney)
    = (utc_instant time + utcoffset_at tz (utc_instant time))%Z /\
    zone (dt_tzinfo (astimezone time sydney)) = zone tz.
Proof.
  apply (coord_date_keeps_the_instant Z example_finder example_timezone
           (datetime_new {| year := 2019; month := 6; day := 14 |} 13 55 0 utc)
           151%Z (-34)%Z).
  reflexivity.
Defined.

Lemma local_date_explicit_zone_agrees_witness :
  let parse_iso := fun s => Ok (VObject ("datetime:" ++ s)) in
  let coords := fun _ : Dataset => Ok (151%Z, (-34)%Z) in
  let as_dt := fun _ : pyval =>
    datetime_new {| year := 2019; month := 6; day := 14 |} 13 55 0 utc in
  let ds := {| center_time := VObject "computed"; metadata_doc := VDict 0 |} in
  snd (local_date Z example_finder example_timezone parse_iso coords as_dt
         [[]] ds None)
  = snd (local_date Z example_finder example_timezone parse_iso coords as_dt
           [[]] ds (Some sydney)) /\
  fst (local_date Z example_finder example_timezone parse_iso coords as_dt
         [[]] ds (Some sydney)) = [].
Proof.
  apply (local_date_explicit_zone_agrees Z example_finder example_timezone
           (fun s => Ok (VObject ("datetime:" ++ s)))
           (fun _ : Dataset => Ok (151%Z, (-34)%Z))
           (fun _ : pyval =>
              datetime_new {| year := 2019; month := 6; day := 14 |} 13 55 0 utc)
           [[]] {| center_time := VObject "computed"; metadata_doc := VDict 0 |}
           (151%Z, (-34)%Z) sydney);
    reflexivity.
Defined.

(** ** Function resolution, continued *)

Section ResolutionMoreFacts.

Variable import_module : string -> result dict.

(** X6: whatever it is given, [get_function] returns a callable, or [None]
    when it was given [None]; nothing else comes back. *)
Theorem get_function_returns_callable_or_none :
  forall (func v : pyval),
    get_function import_module func = Ok v ->
    (func = VNone /\ v = VNone) \/ callable v = true.
Proof.
  intros func v. unfold get_function.
  destruct func; simpl; try (intros H; inversion H; auto; fail);
    try discriminate.
  destruct (rsplit_dot s) as [|m [|f [|x l]]]; try discriminate.
  destruct (import_module m) as [ns|e]; simpl; [|discriminate].
  unfold getattr_module. destruct (dict_get f ns) as [w|]; simpl; [|discriminate].
  destruct (callable w) eqn:Hw; [|discriminate].
  intros H. inversion H; subst. right. exact Hw.
Qed.

(** X8: a name without a dot is not resolved: unpacking the one piece
    [rsplit] returns raises [ValueError]. *)
Theorem get_function_name_without_dot :
  forall (s : string),
    has_dot s = false ->
    exists msg,
      get_function import_module (VStr s) = Err (Raise ValueError (Some msg)).
Proof.
  intros s H. unfold get_function. cbn [is_None callable negb andb].
  rewrite (rsplit_dot_no_dot s H). eexists. reflexivity.
Qed.

(** X9: when the module part, everything before the last dot, does not
    import, the exception of the import is the result. *)
Theorem get_function_import_error :
  forall (mod_name func_name : string) (e : exn),
    has_dot func_name = false ->
    import_module mod_name = Err e ->
    get_function import_module (VStr (mod_name ++ "." ++ func_name)) = Err e.
Proof.
  intros mod_name func_name e Hdot Himp. unfold get_function.
  cbn [is_None callable negb andb].
  rewrite (rsplit_dot_app mod_name func_name Hdot), Himp. reflexivity.
Qed.

End ResolutionMoreFacts.

Lemma get_function_returns_callable_or_none_witness :
  (VStr "math.pow" = VNone /\ VCallable "math.pow" = VNone) \/
  callable (VCallable "math.pow") = true.
Proof.
  apply (get_function_returns_callable_or_none example_modules (VStr "math.pow")).
  reflexivity.
Defined.

Lemma get_function_name_without_dot_witness :
  exists msg,
    get_function example_modules (VStr "pow") = Err (Raise ValueError (Some msg)).
Proof.
  apply (get_function_name_without_dot example_modules "pow"). reflexivity.
Defined.

Lemma get_function_import_error_witness :
  get_function example_modules (VStr "os.path.join")
  = Err (Raise ImportError (Some "No module named 'os.path'")).
Proof.
  apply (get_function_import_error example_modules "os.path" "join");
    reflexivity.
Defined.

(** The module part may itself hold dots: the name is split at the last. *)
Lemma get_function_resolves_witness :
  get_function
    (fun name => if String.eqb name "os.path"
                 then Ok [("join", VCallable "os.path.join")]
                 else raise ImportError name)
    (VStr "os.path.join")
  = Ok (VCallable "os.path.join").
Proof.
  apply (get_function_resolves
           (fun name => if String.eqb name "os.path"
                        then Ok [("join", VCallable "os.path.join")]
                        else raise ImportError name)
           "os.path" "join" [("join", VCallable "os.path.join")]);
    reflexivity.
Defined.

(** ** Service base URLs *)

Lemma rstrip_slash_spec s : exists n, s = rstrip_slash s ++ slashes n.
Proof.
  induction s as [|c s IH]; [exists 0; reflexivity|].
  destruct IH as [n IH]. cbn [rstrip_slash].
  destruct (rstrip_slash s) as [|c1 r] eqn:Hr.
  - change ("" ++ slashes n) with (slashes n) in IH. subst s.
    destruct (Ascii.eqb_spec c "/") as [->|Hc].
    + exists (S n). reflexivity.
    + exists n. reflexivity.
  - exists n. rewrite IH at 1. reflexivity.
Qed.

Lemma rstrip_slash_no_trailing_slash s : ends_with_slash (rstrip_slash s) = false.
Proof.
  induction s as [|c s IH]; [reflexivity|]. cbn [rstrip_slash].
  destruct (rstrip_slash s) as [|c1 r] eqn:Hr.
  - destruct (Ascii.eqb_spec c "/") as [->|Hc]; [reflexivity|].
    simpl. destruct (Ascii.eqb_spec c "/"); [contradiction|reflexivity].
  - exact IH.
Qed.

Lemma rstrip_slash_fixed s : ends_with_slash s = false -> rstrip_slash s = s.
Proof.
  induction s as [|c s IH]; [reflexivity|].
  destruct s as [|c1 s].
  - simpl. intros ->. reflexivity.
  - intros H. pose proof (IH H) as IH'.
    cbn [rstrip_slash] in *. rewrite IH'. reflexivity.
Qed.

Lemma list_index_Some x l i :
  list_index x l = Some i ->
  l !! i = Some x /\ forall j y, j < i -> l !! j = Some y -> y <> x.
Proof.
  revert i. induction l as [|y l IH]; intros i; simpl; [discriminate|].
  destruct (String.eqb_spec y x) as [->|Hne].
  - intros H. inversion H; subst. split; [reflexivity|]. intros j z Hj. lia.
  - destruct (list_index x l) as [i'|]; [|discriminate].
    intros H. inversion H; subst. destruct (IH i' eq_refl) as [Hx Hfirst].
    split; [exact Hx|].
    intros [|j] z Hj Hz; simpl in Hz.
    + inversion Hz; subst. exact Hne.
    + apply (Hfirst j z); [lia|exact Hz].
Qed.

Lemma list_index_None x l :
  list_index x l = None -> forall i y, l !! i = Some y -> y <> x.
Proof.
  induction l as [|z l IH]; simpl; intros H i y Hy; [discriminate|].
  destruct (String.eqb_spec z x) as [->|Hne]; [discriminate|].
  destruct (list_index x l) eqn:Hl; [discriminate|].
  destruct i as [|i]; simpl in Hy.
  - inversion Hy; subst. exact Hne.
  - apply (IH eq_refl i y Hy).
Qed.

Lemma result_map_lookup {A B} (f : A -> result B) l l' :
  result_map f l = Ok l' ->
  forall i, match l !! i with
            | Some a => exists b, f a = Ok b /\ l' !! i = Some b
            | None => l' !! i = None
            end.
Proof.
  revert l'. induction l as [|a l IH]; intros l'; simpl.
  - intros H i. inversion H. reflexivity.
  - destruct (f a) as [b|e] eqn:Hb; simpl; [|discriminate].
    destruct (result_map f l) as [bs|e]; simpl; [|discriminate].
    intros H. inversion H; subst. intros [|i]; simpl.
    + exists b. auto.
    + apply (IH bs eq_refl i).
Qed.

Lemma result_map_Err {A B} (f : A -> result B) l a e :
  In a l -> f a = Err e -> forall l', result_map f l <> Ok l'.
Proof.
  induction l as [|x l IH]; simpl; [contradiction|].
  intros [->|Hin] He l'.
  - rewrite He. simpl. discriminate.
  - destruct (f x); simpl; [|discriminate].
    destruct (result_map f l) as [bs|e'] eqn:Hm; simpl; [|discriminate].
    exfalso. apply (IH Hin He bs). reflexivity.
Qed.

Section UrlFacts.

Variable urlparse : string -> result (string * string).

Abbreviation base_of := (parse_for_base_url urlparse).
Abbreviation service_url := (get_service_base_url urlparse).

(** X10: the base of a URL is its network location and path without the
    slashes at the end: it never ends with a slash, and it differs from
    location plus path by trailing slashes only. *)
Theorem parse_for_base_url_strips_trailing_slashes :
  forall (url b : string),
    base_of url = Ok b ->
    ends_with_slash b = false /\
    exists netloc path n,
      urlparse url = Ok (netloc, path) /\
      netloc ++ path = b ++ slashes n.
Proof.
  intros url b. unfold parse_for_base_url.
  destruct (urlparse url) as [[netloc path]|e]; simpl; [|discriminate].
  intros H. inversion H; subst. split.
  - apply rstrip_slash_no_trailing_slash.
  - exists netloc, path.
    destruct (rstrip_slash_spec (netloc ++ path)) as [n Hn].
    exists n. split; [reflexivity|exact Hn].
Qed.

(** X11: with a list of allowed URLs, what is returned never ends with a
    slash, and it is the first allowed URL whose base is the base of the
    request, or, when no allowed URL has that base, the first of the
    list; in both cases without its trailing slashes. *)
Theorem get_service_base_url_picks_first_match :
  forall (us : list string) (request_url u : string),
    service_url (UrlList us) request_url = Returns u ->
    ends_with_slash u = false /\
    exists b,
      base_of request_url = Ok b /\
      ((exists i a,
           us !! i = Some a /\ u = rstrip_slash a /\ base_of a = Ok b /\
           forall j a', j < i -> us !! j = Some a' -> base_of a' <> Ok b)
       \/
       ((forall i a, us !! i = Some a -> base_of a <> Ok b) /\
        exists a, us !! 0 = Some a /\ u = rstrip_slash a)).
Proof.
  intros us request_url u. unfold get_service_base_url.
  destruct (base_of request_url) as [b|e] eqn:Hb; [|discriminate].
  destruct (result_map base_of us) as [ps|e] eqn:Hps; [|discriminate].
  pose proof (result_map_lookup _ _ _ Hps) as Hlk.
  destruct (list_index b ps) as [i|] eqn:Hidx.
  - destruct (us !! i) as [a|] eqn:Ha; [|discriminate].
    intros H. inversion H; subst.
    split; [apply rstrip_slash_no_trailing_slash|].
    exists b. split; [reflexivity|]. left. exists i, a.
    destruct (list_index_Some _ _ _ Hidx) as [Hi Hfirst].
    pose proof (Hlk i) as Hlki. rewrite Ha in Hlki.
    destruct Hlki as (b' & Hfa & Hpi).
    repeat split; auto.
    + congruence.
    + intros j a' Hj Ha' Hbase.
      pose proof (Hlk j) as Hlkj. rewrite Ha' in Hlkj.
      destruct Hlkj as (b'' & Hfa' & Hpj).
      apply (Hfirst j b'' Hj Hpj). congruence.
  - destruct (us !! 0) as [a|] eqn:Ha; [|discriminate].
    intros H. inversion H; subst.
    split; [apply rstrip_slash_no_trailing_slash|].
    exists b. split; [reflexivity|]. right. split.
    + intros i a' Ha' Hbase.
      pose proof (Hlk i) as Hlki. rewrite Ha' in Hlki.
      destruct Hlki as (b' & Hfa & Hpi).
      apply (list_index_None _ _ Hidx i b' Hpi). congruence.
    + exists a. auto.
Qed.

(** X12: every allowed URL is parsed before the request is looked up: one
    allowed URL that [urlparse] rejects makes the call raise, also when
    another allowed URL matches the request. *)
Theorem get_service_base_url_needs_all_urls_to_parse :
  forall (us : list string) (request_url a : string) (e : exn),
    In a us -> urlparse a = Err e ->
    exists e', service_url (UrlList us) request_url = Raises e'.
Proof.
  intros us request_url a e Hin He. unfold get_service_base_url.
  destruct (base_of request_url) as [b|e']; [|eexists; reflexivity].
  destruct (result_map base_of us) as [ps|e'] eqn:Hps; [|eexists; reflexivity].
  exfalso. apply (result_map_Err base_of us a e Hin) with (l' := ps).
  - unfold parse_for_base_url. rewrite He. reflexivity.
  - exact Hps.
Qed.

(** An empty list of allowed URLs has no first element to fall back
    on: once the request URL is parsed the call raises [IndexError]. *)
Theorem get_service_base_url_empty_list :
  forall (request_url b : string),
    base_of request_url = Ok b ->
    service_url (UrlList []) request_url
    = RaisesIndexError "list index out of range".
Proof.
  intros request_url b Hb. unfold get_service_base_url. rewrite Hb. reflexivity.
Qed.

End UrlFacts.

Lemma parse_for_base_url_strips_trailing_slashes_witness :
  ends_with_slash "mirror.example.org/wms" = false /\
  exists netloc path n,
    example_urlparse "https://mirror.example.org/wms//" = Ok (netloc, path) /\
    netloc ++ path = "mirror.example.org/wms" ++ slashes n.
Proof.
  apply (parse_for_base_url_strips_trailing_slashes example_urlparse
           "https://mirror.example.org/wms//" "mirror.example.org/wms").
  reflexivity.
Defined.

(** The request came over http with a slash at the end; the second allowed
    URL has its base, and is returned as it is configured. *)
Lemma get_service_base_url_picks_first_match_witness :
  ends_with_slash "https://ows.example.org/wms" = false /\
  exists b,
    parse_for_base_url example_urlparse "http://ows.example.org/wms/" = Ok b /\
    ((exists i a,
         ["https://mirror.example.org/wms//"; "https://ows.example.org/wms"] !! i
         = Some a /\
         "https://ows.example.org/wms" = rstrip_slash a /\
         parse_for_base_url example_urlparse a = Ok b /\
         forall j a', j < i ->
           ["https://mirror.example.org/wms//"; "https://ows.example.org/wms"] !! j
           = Some a' ->
           parse_for_base_url example_urlparse a' <> Ok b)
     \/
     ((forall i a,
          ["https://mirror.example.org/wms//"; "https://ows.example.org/wms"] !! i
          = Some a ->
          parse_for_base_url example_urlparse a <> Ok b) /\
      exists a,
        ["https://mirror.example.org/wms//"; "https://ows.example.org/wms"] !! 0
        = Some a /\
        "https://ows.example.org/wms" = rstrip_slash a)).
Proof.
  apply (get_service_base_url_picks_first_match example_urlparse
           ["https://mirror.example.org/wms//"; "https://ows.example.org/wms"]
           "http://ows.example.org/wms/" "https://ows.example.org/wms").
  reflexivity.
Defined.

Lemma get_service_base_url_needs_all_urls_to_parse_witness :
  exists e',
    get_service_base_url example_urlparse
      (UrlList ["https://ows.example.org/wms"; "ows example"])
      "https://ows.example.org/wms"
    = Raises e'.
Proof.
  apply (get_service_base_url_needs_all_urls_to_parse example_urlparse
           ["https://ows.example.org/wms"; "ows example"]
           "https://ows.example.org/wms" "ows example"
           (Raise ValueError (Some "Invalid URL: ows example"))).
  - right. left. reflexivity.
  - reflexivity.
Defined.

Lemma get_service_base_url_empty_list_witness :
  get_service_base_url example_urlparse (UrlList []) "https://ows.example.org/wms"
  = RaisesIndexError "list index out of range".
Proof.
  apply (get_service_base_url_empty_list example_urlparse
           "https://ows.example.org/wms" "ows.example.org/wms").
  reflexivity.
Defined.

(** No match: the first allowed URL is the answer, without its slashes. *)
Example get_service_base_url_falls_back_to_first :
  get_service_base_url example_urlparse
    (UrlList ["https://mirror.example.org/wms//"; "https://ows.example.org/wms"])
    "https://ows.example.org/"
  = Returns "https://mirror.example.org/wms".
Proof. reflexivity. Qed.

(** ** Headers of a request *)

Lemma capture_headers_store request l st :
  l < length st ->
  exists st',
    capture_headers request (VDict l) st = Ok (VDict l, st') /\
    length st' = length st /\
    (forall l', l' <> l -> deref st' l' = deref st l') /\
    deref st' l
    = dict_set "url_root" (url_root request)
        (dict_set "host" (default VNone (headers_get request "Host"))
           (dict_set "requestid" (default VNone (environ_get request "FLASK_REQUEST_ID"))
              (dict_set "origin" (default VNone (headers_get request "Origin"))
                 (dict_set "referer" (default VNone (headers_get request "Referer"))
                    (deref st l))))).
Proof.
  intros Hl. unfold capture_headers. cbn [setitem bind].
  eexists. split; [reflexivity|]. split; [|split].
  - rewrite !length_insert. reflexivity.
  - intros l' Hne.
    rewrite !deref_insert_ne by congruence. reflexivity.
  - repeat (rewrite deref_insert_eq by (rewrite ?length_insert; exact Hl)).
    reflexivity.
Qed.

(** X14: [capture_headers] returns the dict it was given, not a copy, and
    after it the five keys hold the three headers, the request id and the
    URL root, with [None] for a header or an id the request does not have,
    whatever the dict held under these keys before. *)
Theorem capture_headers_sets_the_keys :
  forall (request : Request) (l : loc) (st : store),
    l < length st ->
    exists st',
      capture_headers request (VDict l) st = Ok (VDict l, st') /\
      dict_get "referer" (deref st' l)
      = Some (default VNone (headers_get request "Referer")) /\
      dict_get "origin" (deref st' l)
      = Some (default VNone (headers_get request "Origin")) /\
      dict_get "requestid" (deref st' l)
      = Some (default VNone (environ_get request "FLASK_REQUEST_ID")) /\
      dict_get "host" (deref st' l)
      = Some (default VNone (headers_get request "Host")) /\
      dict_get "url_root" (deref st' l) = Some (url_root request).
Proof.
  intros request l st Hl.
  destruct (capture_headers_store request l st Hl) as (st' & Hrun & _ & _ & Hd).
  exists st'. split; [exact Hrun|]. rewrite Hd.
  repeat split; rewrite !dict_get_set; reflexivity.
Qed.

(** X15: [capture_headers] touches nothing else: every other key of the
    dict keeps its value, every other dict of the store is as it was, and
    no dict is created. *)
Theorem capture_headers_keeps_the_rest :
  forall (request : Request) (l : loc) (st : store),
    l < length st ->
    exists st',
      capture_headers request (VDict l) st = Ok (VDict l, st') /\
      length st' = length st /\
      (forall l', l' <> l -> deref st' l' = deref st l') /\
      (forall k, ~ In k captured_keys ->
                 dict_get k (deref st' l) = dict_get k (deref st l)).
Proof.
  intros request l st Hl.
  destruct (capture_headers_store request l st Hl)
    as (st' & Hrun & Hlen & Hother & Hd).
  exists st'. repeat split; auto.
  intros k Hk. rewrite Hd, !dict_get_set.
  unfold captured_keys in Hk. simpl in Hk.
  repeat match goal with
    | |- context [String.eqb k ?key] =>
        destruct (String.eqb_spec k key);
        [exfalso; apply Hk; subst; tauto|]
    end.
  reflexivity.
Qed.

Lemma capture_headers_sets_the_keys_witness :
  exists st',
    capture_headers example_request (VDict 0)
      [[("layers", VStr "ls8"); ("host", VStr "stale")]]
    = Ok (VDict 0, st') /\
    dict_get "referer" (deref st' 0) = Some VNone /\
    dict_get "origin" (deref st' 0) = Some (VStr "https://map.example.org") /\
    dict_get "requestid" (deref st' 0) = Some VNone /\
    dict_get "host" (deref st' 0) = Some (VStr "ows.example.org") /\
    dict_get "url_root" (deref st' 0) = Some (VStr "https://ows.example.org/").
Proof.
  apply (capture_headers_sets_the_keys example_request 0
           [[("layers", VStr "ls8"); ("host", VStr "stale")]]).
  simpl. lia.
Defined.

Lemma capture_headers_keeps_the_rest_witness :
  exists st',
    capture_headers example_request (VDict 0)
      [[("layers", VStr "ls8"); ("host", VStr "stale")]; [("other", VInt 1)]]
    = Ok (VDict 0, st') /\
    length st' = 2 /\
    (forall l', l' <> 0 ->
                deref st' l'
                = deref [[("layers", VStr "ls8"); ("host", VStr "stale")];
                         [("other", VInt 1)]] l') /\
    (forall k, ~ In k captured_keys ->
               dict_get k (deref st' 0)
               = dict_get k [("layers", VStr "ls8"); ("host", VStr "stale")]).
Proof.
  apply (capture_headers_keeps_the_rest example_request 0
           [[("layers", VStr "ls8"); ("host", VStr "stale")]; [("other", VInt 1)]]).
  simpl. lia.
Defined.

(** ** Data collections, continued *)

Section CollectionMoreFacts.

Variables T P : Type.

Lemma add_all_entries (c : collection T P) (adds : list (T * P)) :
  _collections (add_all c adds)
  = (_collections c
     ++ map (fun tp => make_TimeData T P (cls c) (fst tp) (snd tp)) adds)%list.
Proof.
  revert c. induction adds as [|[t p] adds IH]; intros c; simpl.
  - rewrite app_nil_r. reflexivity.
  - rewrite IH. simpl. rewrite <- app_assoc. reflexivity.
Qed.

(** X16: iterating a collection gives one entry per [add_time], in the
    order of the calls, each with the time and the payload it was added
    with: nothing is reordered, merged or dropped, and equal times are
    kept apart. *)
Theorem collection_iter_is_insertion_order :
  forall (k : klass) (adds : list (T * P)),
    collection_iter (add_all (collection_new k) adds)
    = map (fun tp => make_TimeData T P k (fst tp) (snd tp)) adds.
Proof.
  intros k adds. unfold collection_iter. rewrite add_all_entries. reflexivity.
Qed.

(** X17: on the base class [data_list] is the payloads in the order they
    were added, and [collapse_to_single] is its first element, [None]
    when there is none. *)
Theorem data_list_is_payloads_in_order :
  forall (adds : list (T * P)),
    let c := add_all (collection_new DataCollection) adds in
    data_list T P c = Ok (map snd adds) /\
    collapse_to_single c = Ok (head (map snd adds)).
Proof.
  intros adds c. subst c. unfold data_list, collapse_to_single.
  rewrite add_all_entries. simpl. split.
  - induction adds as [|[t p] adds IH]; simpl; [reflexivity|].
    rewrite IH. reflexivity.
  - destruct adds as [|[t p] adds]; reflexivity.
Qed.

(** X18: on the base class the length is the number of [add_time] calls,
    and the collection is truthy exactly when there was at least one,
    whatever the payloads are. *)
Theorem DataCollection_len_counts_entries :
  forall (len_P : P -> nat) (adds : list (T * P)),
    let c := add_all (collection_new DataCollection) adds in
    collection_len len_P c = Ok (length adds) /\
    collection_bool T P len_P c = Ok (negb (is_empty adds)).
Proof.
  intros len_P adds c. subst c. unfold collection_bool, collection_len.
  rewrite add_all_cls. simpl. rewrite add_all_entries. simpl.
  rewrite length_map. split; [reflexivity|].
  destruct adds; reflexivity.
Qed.

End CollectionMoreFacts.

Section DatasetCollectionMoreFacts.

Variable T : Type.

Lemma total_size_zero (adds : list (T * gset dataset_ref)) :
  total_size adds = 0 <-> Forall (fun tp => snd tp = ∅) adds.
Proof.
  unfold total_size. induction adds as [|[t s] adds IH]; simpl.
  - split; auto.
  - split.
    + intros H. assert (size s = 0 /\ foldr Nat.add 0 (map (fun tp => size (snd tp)) adds) = 0)
        as [Hs Hrest] by lia.
      constructor; [apply size_empty_inv in Hs; apply leibniz_equiv; exact Hs|].
      apply IH. exact Hrest.
    + intros H. inversion H as [|x l Hs Hrest]; subst. simpl in Hs. subst s.
      rewrite size_empty. apply IH in Hrest. simpl. exact Hrest.
Qed.

(** X19: a [DatasetCollection] is falsy exactly when every set added to it
    is empty: entries with no datasets do not make it truthy. *)
Theorem DatasetCollection_bool_false_iff_no_datasets :
  forall (adds : list (T * gset dataset_ref)),
    collection_bool T (gset dataset_ref) size
      (add_all (collection_new DatasetCollection) adds) = Ok false
    <-> Forall (fun tp => snd tp = ∅) adds.
Proof.
  intros adds. unfold collection_bool.
  pose proof (DatasetCollection_len_add_all T (collection_new DatasetCollection)
                adds 0 eq_refl eq_refl) as Hlen.
  unfold DatasetCollection_len in Hlen. rewrite Hlen. simpl.
  rewrite <- total_size_zero.
  destruct (total_size adds); simpl; split; intros H; try reflexivity;
    try discriminate; try lia.
Qed.

End DatasetCollectionMoreFacts.

(** One entry, no dataset: the collection has something to iterate over
    and is falsy all the same. *)
Example DatasetCollection_with_empty_entry_is_falsy :
  let c := add_time (collection_new DatasetCollection) 2019%Z
             (∅ : gset dataset_ref) in
  collection_bool Z (gset dataset_ref) size c = Ok false /\
  length (collection_iter c) = 1.
Proof. split; reflexivity. Qed.

(** ** Function wrapper, continued *)

Lemma dict_set_idem k v d : dict_set k v (dict_set k v d) = dict_set k v d.
Proof.
  induction d as [|[k0 v0] d IH]; simpl.
  - rewrite String.eqb_refl. reflexivity.
  - destruct (String.eqb k k0) eqn:Hk; simpl; rewrite Hk.
    + reflexivity.
    + rewrite IH. reflexivity.
Qed.

Lemma merged_no_keywords bound : merged bound [] = bound.
Proof. reflexivity. Qed.

Lemma merged_no_bound kwargs : merged [] kwargs = kwargs.
Proof. destruct kwargs; reflexivity. Qed.

(** A call allocates the dict of its keywords: the store grows. *)
Lemma prepare_store_grows self args kwargs st l dl i st' :
  _kwargs self = VDict l -> l < length st ->
  _args self = VList dl ->
  valid st (product_cfg self) ->
  prepare self args kwargs st = Ok (i, st') ->
  length st < length st'.
Proof.
  intros Hk Hl Ha Hv. unfold prepare, alloc. rewrite Hk, Ha.
  cbn [truthy]. rewrite (deref_app_l st [kwargs] l Hl).
  destruct kwargs as [|kv kwargs]; cbn [is_empty negb andb bind].
  - destruct (truthy _ (product_cfg self)); cbn [bind setitem];
      destruct args, dl; cbn [is_empty negb andb unpack iterate bind mapping];
      intros H; inversion H; subst;
      rewrite ?length_insert, ?length_app; simpl; lia.
  - destruct (deref st l) as [|b bound] eqn:Hb; cbn [is_empty negb andb bind].
    + destruct (truthy _ (product_cfg self)); cbn [bind setitem];
        destruct args, dl; cbn [is_empty negb andb unpack iterate bind mapping];
        intros H; inversion H; subst;
        rewrite ?length_insert, ?length_app; simpl; lia.
    + unfold copy_update, alloc. cbn [bind].
      destruct (truthy _ (product_cfg self)); cbn [bind setitem];
        destruct args, dl; cbn [is_empty negb andb unpack iterate bind mapping];
        intros H; inversion H; subst;
        rewrite ?length_insert, ?length_app; simpl; lia.
Qed.

Lemma truthy_same st st' l v :
  (forall l', l' < length st -> l' <> l -> deref st' l' = deref st l') ->
  valid st v -> v <> VDict l ->
  truthy st' v = truthy st v.
Proof.
  intros Hother Hv Hne. destruct v; simpl; try reflexivity.
  simpl in Hv. rewrite Hother; [reflexivity|exact Hv|congruence].
Qed.

(** X23: a call may write into the bound keywords, and still the next
    call with the same arguments passes the function exactly what this
    one passed (the product configuration not being the dict of the bound
    keywords itself). *)
Theorem repeated_call_passes_the_same_arguments :
  forall (self : t) (args : list pyval) (kwargs : dict) (st : store) l dl,
    _kwargs self = VDict l -> l < length st ->
    _args self = VList dl ->
    valid st (product_cfg self) ->
    product_cfg self <> VDict l ->
    exists i st1 st2,
      prepare self args kwargs st = Ok (i, st1) /\
      prepare self args kwargs st1 = Ok (i, st2).
Proof.
  intros self args kwargs st l dl Hk Hl Ha Hv Hne.
  destruct (prepare_ok self args kwargs st l dl Hk Hl Ha Hv)
    as (st1 & Hp1 & Hother & Hself).
  pose proof (prepare_store_grows _ _ _ _ _ _ _ _ Hk Hl Ha Hv Hp1) as Hgrow.
  assert (valid st1 (product_cfg self)) as Hv1
      by (destruct (product_cfg self); simpl in *; try exact I; lia).
  assert (l < length st1) as Hl1 by lia.
  destruct (prepare_ok self args kwargs st1 l dl Hk Hl1 Ha Hv1)
    as (st2 & Hp2 & _).
  rewrite (truthy_same st st1 l _ Hother Hv Hne) in Hp2.
  eexists. exists st1, st2. split; [exact Hp1|].
  rewrite Hp2. rewrite Hself.
  destruct (truthy st (product_cfg self)); cbn [andb]; [|reflexivity].
  destruct kwargs as [|kv kwargs]; cbn [is_empty]; [|reflexivity].
  rewrite !merged_no_keywords, dict_set_idem. reflexivity.
Qed.

Section WrapperInitFacts.

Variable import_module : string -> result dict.

(** X21: a wrapper built from a bare name has nothing bound: every call
    passes the resolved function the positional arguments and the keywords
    of the call, unchanged, and leaves every dict of the store as it
    was. *)
Theorem wrapper_from_name_forwards_arguments :
  forall (pc : pyval) (name : string) (f : pyval) (st : store)
         (args : list pyval) (kwargs : dict),
    get_function import_module (VStr name) = Ok f ->
    exists self st1 i st2,
      __init__ import_module pc (VStr name) st = Ok (self, st1) /\
      prepare self args kwargs st1 = Ok (i, st2) /\
      callee i = f /\ positional i = args /\ keywords i = kwargs /\
      forall l, l < length st -> deref st2 l = deref st l.
Proof.
  intros pc name f st args kwargs Hf.
  unfold __init__, alloc. cbn [callable]. rewrite Hf. cbn [bind].
  eexists. eexists. 
  set (self := {| _func := f; _args := VList []; _kwargs := VDict (length st);
                  product_cfg := VNone |}).
  assert (length st < length (st ++ [[]])%list) as Hl
      by (rewrite length_app; simpl; lia).
  destruct (prepare_ok self args kwargs (st ++ [[]])%list (length st) []
              eq_refl Hl eq_refl I) as (st2 & Hp & Hother & _).
  rewrite deref_app_new, merged_no_bound in Hp. cbn [truthy product_cfg self] in Hp.
  eexists. exists st2. split; [reflexivity|]. split; [exact Hp|].
  cbn [callee positional keywords]. repeat split.
  - apply app_nil_r.
  - intros l Hlt. rewrite Hother by (rewrite ?length_app; simpl; lia).
    apply deref_app_l. exact Hlt.
Qed.

(** X24: a structured record without [pass_product_cfg], or with it
    false, retains no product configuration: a call passes [product_cfg]
    only when the call or the bound keywords give it, and the keywords are
    the bound ones overlaid by those of the call. *)
Theorem without_pass_product_cfg_nothing_is_injected :
  forall (pc : pyval) (c : loc) (st0 : store) (self : t) (st1 : store)
         (st : store) (args : list pyval) (kwargs : dict) l dl,
    dict_get "pass_product_cfg" (deref st0 c) = None \/
    dict_get "pass_product_cfg" (deref st0 c) = Some (VBool false) ->
    __init__ import_module pc (VDict c) st0 = Ok (self, st1) ->
    _kwargs self = VDict l -> l < length st ->
    _args self = VList dl ->
    NoDup (map fst kwargs) ->
    product_cfg self = VNone /\
    exists i st',
      prepare self args kwargs st = Ok (i, st') /\
      forall k,
        dict_get k (keywords i)
        = match dict_get k kwargs with
          | Some v => Some v
          | None => dict_get k (deref st l)
          end.
Proof.
  intros pc c st0 self st1 st args kwargs l dl Hpass Hinit Hk Hl Ha Hnd.
  destruct (init_record _ _ _ _ _ _ Hinit) as (Hc & -> & _ & _ & Hpc).
  assert (product_cfg self = VNone) as Hnone.
  { unfold dict_get_default in Hpc.
    destruct Hpass as [Hp|Hp]; rewrite Hp in Hpc; exact Hpc. }
  split; [exact Hnone|].
  assert (valid st (product_cfg self)) as Hv by (rewrite Hnone; exact I).
  destruct (prepare_ok self args kwargs st l dl Hk Hl Ha Hv) as (st' & Hprep & _).
  rewrite Hnone in Hprep. cbn [truthy] in Hprep.
  eexists. exists st'. split; [exact Hprep|].
  intros k. cbn [keywords]. apply dict_get_merged. exact Hnd.
Qed.

(** X26: only a callable given as the whole configuration is refused: a
    structured record whose [function] entry is a callable object is
    accepted, and the wrapper calls that object. *)
Theorem init_accepts_callable_in_record :
  forall (pc f : pyval) (c : loc) (st0 : store),
    dict_get "function" (deref st0 c) = Some f ->
    callable f = true ->
    exists self st1,
      __init__ import_module pc (VDict c) st0 = Ok (self, st1) /\
      _func self = f.
Proof.
  intros pc f c st0 Hf Hc. unfold __init__, alloc.
  cbn [callable subscript]. rewrite Hf. cbn [bind].
  unfold get_function. rewrite Hc.
  replace (negb (is_None f) && negb true) with false
    by (destruct (is_None f); reflexivity).
  cbn [bind]. eexists. eexists. split; reflexivity.
Qed.

Variable apply_function : string -> list pyval -> dict -> result pyval.

(** X25: a structured record whose [function] entry is [None] is accepted
    by the constructor; the wrapper it builds has no function, and no call
    of it returns. *)
Theorem wrapper_without_function_never_returns :
  forall (pc : pyval) (c : loc) (st0 : store),
    dict_get "function" (deref st0 c) = Some VNone ->
    exists self st1,
      __init__ import_module pc (VDict c) st0 = Ok (self, st1) /\
      _func self = VNone /\
      forall args kwargs st r,
        __call__ apply_function self args kwargs st <> Ok r.
Proof.
  intros pc c st0 Hf. unfold __init__, alloc.
  cbn [callable subscript]. rewrite Hf. cbn [bind get_function is_None negb andb].
  eexists. eexists. split; [reflexivity|]. split; [reflexivity|].
  intros args kwargs st r. unfold __call__.
  match goal with
  | |- context [prepare ?s args kwargs st] =>
      destruct (prepare s args kwargs st) as [[i st']|e] eqn:Hp
  end; cbn [bind]; [|discriminate].
  assert (callee i = VNone) as Hcallee.
  { revert Hp. unfold prepare, alloc. cbn [_func].
    repeat match goal with
      | |- context [bind ?x _] => destruct x as [?|?]; cbn [bind]
      | |- context [let (_, _) := ?x in _] => destruct x
      end; intros H; inversion H; reflexivity. }
  unfold invoke. rewrite Hcallee. discriminate.
Qed.

End WrapperInitFacts.

Lemma call_leaves_bound_kwargs_witness :
  exists i st',
    prepare pow_wrapper [VInt 3] [("precision", VInt 2)]
      (pow_cfg_store ++ [[]])%list = Ok (i, st') /\
    forall l', l' < length (pow_cfg_store ++ [[]])%list ->
               deref st' l' = deref (pow_cfg_store ++ [[]])%list l'.
Proof.
  apply (call_leaves_bound_kwargs pow_wrapper [VInt 3] [("precision", VInt 2)]
           (pow_cfg_store ++ [[]])%list 1 [VInt 2]);
    [ reflexivity | simpl; lia | reflexivity | exact I | reflexivity ].
Defined.

Lemma repeated_call_passes_the_same_arguments_witness :
  exists i st1 st2,
    prepare layer_wrapper [VInt 3; VInt 2] [] (layer_cfg_store ++ [[]])%list
    = Ok (i, st1) /\
    prepare layer_wrapper [VInt 3; VInt 2] [] st1 = Ok (i, st2).
Proof.
  apply (repeated_call_passes_the_same_arguments layer_wrapper [VInt 3; VInt 2] []
           (layer_cfg_store ++ [[]])%list 1 []);
    [ reflexivity | simpl; lia | reflexivity | exact I | discriminate ].
Defined.

Lemma wrapper_from_name_forwards_arguments_witness :
  exists self st1 i st2,
    __init__ example_modules (VObject "layer") (VStr "math.pow") [] = Ok (self, st1) /\
    prepare self [VInt 3; VInt 2] [] st1 = Ok (i, st2) /\
    callee i = VCallable "math.pow" /\
    positional i = [VInt 3; VInt 2] /\
    keywords i = [] /\
    forall l, l < length ([] : store) -> deref st2 l = deref [] l.
Proof.
  apply (wrapper_from_name_forwards_arguments example_modules (VObject "layer")
           "math.pow" (VCallable "math.pow") [] [VInt 3; VInt 2] []).
  reflexivity.
Defined.

Lemma without_pass_product_cfg_nothing_is_injected_witness :
  product_cfg pow_wrapper = VNone /\
  exists i st',
    prepare pow_wrapper [VInt 3] [("precision", VInt 2)]
      (pow_cfg_store ++ [[]])%list = Ok (i, st') /\
    forall k,
      dict_get k (keywords i)
      = match dict_get k [("precision", VInt 2)] with
        | Some v => Some v
        | None => dict_get k (deref (pow_cfg_store ++ [[]])%list 1)
        end.
Proof.
  apply (without_pass_product_cfg_nothing_is_injected example_modules
           (VObject "layer") 0 pow_cfg_store pow_wrapper
           (pow_cfg_store ++ [[]])%list (pow_cfg_store ++ [[]])%list
           [VInt 3] [("precision", VInt 2)] 1 [VInt 2]);
    [ left; reflexivity | reflexivity | reflexivity | simpl; lia | reflexivity
    | apply NoDup_singleton ].
Defined.

Lemma init_accepts_callable_in_record_witness :
  exists self st1,
    __init__ example_modules VNone (VDict 0)
      [[("function", VCallable "math.pow")]] = Ok (self, st1) /\
    _func self = VCallable "math.pow".
Proof.
  apply (init_accepts_callable_in_record example_modules VNone
           (VCallable "math.pow") 0 [[("function", VCallable "math.pow")]]);
    reflexivity.
Defined.

Lemma wrapper_without_function_never_returns_witness :
  exists self st1,
    __init__ example_modules VNone (VDict 0) [[("function", VNone)]]
    = Ok (self, st1) /\
    _func self = VNone /\
    forall args kwargs st r,
      __call__ example_functions self args kwargs st <> Ok r.
Proof.
  apply (wrapper_without_function_never_returns example_modules
           example_functions VNone 0 [[("function", VNone)]]).
  reflexivity.
Defined.

(** ** Extent mask functions *)

Lemma map_lookup_pointwise {A B} (f : A -> B) (l : list A) i x :
  l !! i = Some x -> map f l !! i = Some (f x).
Proof.
  intros H. change (map f l) with (f <$> l).
  rewrite list_lookup_fmap, H. reflexivity.
Qed.

(** X27: [mask_by_val] has one entry per pixel of the band, true exactly
    where the pixel differs from the sentinel; the sentinel is the value
    given, also when that is 0 and also when the band declares no
    [nodata], and the band's [nodata] only when no value is given. *)
Theorem mask_by_val_marks_pixels_off_the_sentinel :
  forall (data : gmap string DataArray) (band : string) (a : DataArray)
         (val : option Z) (sentinel : Z),
    data !! band = Some a ->
    match val with
    | Some v => sentinel = v
    | None => attrs a !! "nodata" = Some sentinel
    end ->
    exists mask,
      mask_by_val data band val = Ok mask /\
      length mask = length (values a) /\
      forall i x, values a !! i = Some x ->
                  mask !! i = Some (negb (x =? sentinel)%Z).
Proof.
  intros data band a val sentinel Ha Hs.
  unfold mask_by_val, getband, getattr_band. rewrite Ha.
  destruct val as [v|]; cbn [bind].
  - subst v. eexists. split; [reflexivity|]. split; [apply length_map|].
    intros i x Hx.
    apply (map_lookup_pointwise (fun x => negb (x =? sentinel)%Z) _ _ _ Hx).
  - rewrite Hs. cbn [bind]. eexists. split; [reflexivity|].
    split; [apply length_map|].
    intros i x Hx.
    apply (map_lookup_pointwise (fun x => negb (x =? sentinel)%Z) _ _ _ Hx).
Qed.



(** X29: on an extent band of zeros and ones whose [nodata] is 0, the
    value mask and the flag mask are the same mask, whatever band the
    caller names. *)
Theorem extent_masks_agree_on_flags :
  forall (data : gmap string DataArray) (band band' : string) (a : DataArray),
    data !! "extent" = Some a ->
    attrs a !! "nodata" = Some 0%Z ->
    Forall (fun x => x = 0%Z \/ x = 1%Z) (values a) ->
    mask_by_extent_val data band = mask_by_extent_flag data band'.
Proof.
  intros data band band' a Ha Hn Hflags.
  unfold mask_by_extent_val, mask_by_extent_flag, getband, getattr_band.
  rewrite Ha. cbn [bind]. rewrite Hn. cbn [bind]. f_equal.
  induction Hflags as [|x l Hx _ IH]; simpl; [reflexivity|].
  rewrite IH. destruct Hx as [->| ->]; reflexivity.
Qed.

Lemma mask_by_val_marks_pixels_off_the_sentinel_witness :
  exists mask,
    mask_by_val example_data "red" (Some 0%Z) = Ok mask /\
    length mask = 4 /\
    forall i x, [0; 7; 0; 255]%Z !! i = Some x ->
                mask !! i = Some (negb (x =? 0)%Z).
Proof.
  apply (mask_by_val_marks_pixels_off_the_sentinel example_data "red"
           {| values := [0; 7; 0; 255]%Z; attrs := ∅ |} (Some 0%Z) 0%Z);
    reflexivity.
Defined.


Lemma extent_masks_agree_on_flags_witness :
  mask_by_extent_val example_data "red" = mask_by_extent_flag example_data "flags".
Proof.
  apply (extent_masks_agree_on_flags example_data "red" "flags"
           {| values := [0; 1; 1; 0]%Z; attrs := {[ "nodata" := 0%Z ]} |});
    [ reflexivity | reflexivity
    | repeat (constructor; [first [left; reflexivity | right; reflexivity]|]);
      constructor ].
Defined.

Example mask_examples :
  mask_by_extent_flag example_data "red" = Ok [false; true; true; false] /\
  mask_by_bitflag example_data "flags" = Ok [5; 0; 0; 0]%Z /\
  mask_by_val example_data "red" None = Err (Raise KeyError (Some "nodata")) /\
  mask_by_val example_data "nir" (Some 0%Z) = Err (Raise KeyError (Some "nir")).
Proof. repeat split; vm_compute; reflexivity. Qed.

(** ** Sub-product extractors *)

Lemma append_cons c s r : String c s ++ r = String c (s ++ r).
Proof. reflexivity. Qed.


Lemma search_L8_app p r :
  search_L8 p = None -> search_L8 (p ++ "L8/" ++ r) = Some r.
Proof.
  induction p as [|c p IH].
  - intros _. reflexivity.
  - intros H. rewrite append_cons.
    cbn [search_L8] in H.
    destruct (after_L8 (String c p)) as [x|] eqn:Ha; [discriminate|].
    cbn [search_L8].
    assert (after_L8 (String c (p ++ "L8/" ++ r)) = None) as ->.
    { destruct p as [|c1 [|c2 p]].
      - cbv [String.append after_L8].
        replace (Ascii.eqb "L" "8") with false by reflexivity.
        rewrite andb_false_r. reflexivity.
      - cbv [String.append after_L8].
        replace (Ascii.eqb "L" "/") with false by reflexivity.
        rewrite andb_false_r. reflexivity.
      - rewrite !append_cons. cbn [after_L8] in *.
        destruct (Ascii.eqb c "L" && Ascii.eqb c1 "8" && Ascii.eqb c2 "/");
          [discriminate|reflexivity]. }
    apply IH. exact H.
Qed.

Lemma search_L8_sound s r :
  search_L8 s = Some r -> exists p, s = p ++ "L8/" ++ r.
Proof.
  induction s as [|c s IH]; cbn [search_L8].
  - discriminate.
  - destruct (after_L8 (String c s)) as [x|] eqn:Ha.
    + intros H. inversion H; subst. exists "".
      destruct s as [|c1 [|c2 s]]; try discriminate.
      cbn [after_L8] in Ha.
      destruct (Ascii.eqb_spec c "L") as [->|]; [|discriminate].
      destruct (Ascii.eqb_spec c1 "8") as [->|]; [|discriminate].
      destruct (Ascii.eqb_spec c2 "/") as [->|]; [|discriminate].
      inversion Ha. reflexivity.
    + intros H. destruct (IH H) as [p ->]. exists (String c p). reflexivity.
Qed.

Lemma take_digits_no_digit r : starts_with_digit r = false -> take_digits r = "".
Proof. destruct r as [|c r]; simpl; [reflexivity|]. intros ->. reflexivity. Qed.








(** X13: a first URI that holds no [L8/] at all makes [ls8_subproduct]
    raise [AttributeError]: the search finds nothing and the code asks the
    absent match for its group. *)
Theorem ls8_subproduct_without_marker :
  forall (uri : string) (more : list string),
    (forall p r, uri <> p ++ "L8/" ++ r) ->
    ls8_subproduct (uri :: more)
    = Raises (Raise AttributeError
                (Some "'NoneType' object has no attribute 'group'")).
Proof.
  intros uri more Hno. unfold ls8_subproduct.
  destruct (search_L8 uri) as [r|] eqn:Hs; [|reflexivity].
  destruct (search_L8_sound _ _ Hs) as [p Hp].
  exfalso. apply (Hno p r Hp).
Qed.

(** X20: when the first [L8/] of the first URI is not followed by a digit,
    the group is empty and [ls8_subproduct] raises [ValueError], also when
    a later [L8/] is followed by a number. *)
Theorem ls8_subproduct_without_digits :
  forall (p r : string) (more : list string),
    search_L8 p = None ->
    starts_with_digit r = false ->
    ls8_subproduct ((p ++ "L8/" ++ r) :: more)
    = Raises (Raise ValueError
                (Some "invalid literal for int() with base 10: ''")).
Proof.
  intros p r more Hp Hr. unfold ls8_subproduct.
  rewrite (search_L8_app p _ Hp), (take_digits_no_digit r Hr). reflexivity.
Qed.


Lemma ls8_subproduct_without_digits_witness :
  ls8_subproduct ["s3://bucket/L8/path/L8/091"]
  = Raises (Raise ValueError (Some "invalid literal for int() with base 10: ''")).
Proof.
  apply (ls8_subproduct_without_digits "s3://bucket/" "path/L8/091" []);
    reflexivity.
Defined.

Example ls8_subproduct_edges :
  ls8_subproduct [] = RaisesIndexError "list index out of range" /\
  ls8_subproduct ["s3://bucket/S2/091"]
  = Raises (Raise AttributeError (Some "'NoneType' object has no attribute 'group'")) /\
  ls8_subproduct ["s3://bucket/L8/091x"] = Returns 91%Z.
Proof. repeat split; vm_compute; reflexivity. Qed.

Lemma search_L8_complete p r : search_L8 (p ++ "L8/" ++ r) <> None.
Proof.
  induction p as [|c p IH].
  - discriminate.
  - rewrite append_cons. cbn [search_L8].
    destruct (after_L8 (String c (p ++ "L8/" ++ r))); [discriminate|exact IH].
Qed.

Lemma ls8_subproduct_without_marker_witness :
  ls8_subproduct ["s3://bucket/S2/091"; "s3://bucket/L8/091"]
  = Raises (Raise AttributeError
              (Some "'NoneType' object has no attribute 'group'")).
Proof.
  apply (ls8_subproduct_without_marker "s3://bucket/S2/091" ["s3://bucket/L8/091"]).
  intros p r H. apply (search_L8_complete p r). rewrite <- H. reflexivity.
Defined.
